(** * cc-yaml: the YAML check-suite generator, embedded and verified

    The development follows [cc_yaml/yaml_parser.py].  Python objects live in
    an explicit store: dictionaries, lists and tuples are heap objects that
    values refer to by location, so that aliasing and in-place update
    ([dict.update]) are visible.  Every method of [YamlParser] is a
    computation in a state-and-exception monad over that store. *)

From Stdlib Require Import ZArith Ascii.
From stdpp Require Import base option list gmap strings.

Open Scope string_scope.
Open Scope list_scope.

(** ** Python values and the object store *)

Module Py.

(** Locations are indices into the store. *)
Abbreviation loc := nat.

(** Immediate values.  [VOther tag] stands for an instance of any other
    class (a float, a date, ...): it is neither iterable nor subscriptable
    and is an instance of none of [str], [int], [list], [dict], [tuple]. *)
Inductive val :=
  | VNone
  | VBool (b : bool)
  | VInt (z : Z)
  | VStr (s : string)
  | VOther (tag : nat)
  | VRef (l : loc).

(** Container objects.  A dictionary keeps its items in insertion order. *)
Inductive obj :=
  | ODict (items : list (val * val))
  | OList (xs : list val)
  | OTuple (xs : list val).

Abbreviation heap := (list obj).

#[global] Instance val_eq_dec : EqDecision val.
Proof. solve_decision. Defined.

#[global] Instance obj_eq_dec : EqDecision obj.
Proof. solve_decision. Defined.

(** The classes that the parser (and the test checks) name as expected
    types. *)
Inductive pytype :=
  | Tstr | Tint | Tbool | Tlist | Tdict | Ttuple | Tnone | Tother (tag : nat).

#[global] Instance pytype_eq_dec : EqDecision pytype.
Proof. solve_decision. Defined.

(** [isinstance(v, t)]; [bool] is a subclass of [int]. *)
Definition isinstance (h : heap) (v : val) (t : pytype) : bool :=
  match t, v with
  | Tstr, VStr _ => true
  | Tint, VInt _ => true
  | Tint, VBool _ => true
  | Tbool, VBool _ => true
  | Tnone, VNone => true
  | Tother n, VOther m => bool_decide (n = m)
  | Tlist, VRef l => match h !! l with Some (OList _) => true | _ => false end
  | Tdict, VRef l => match h !! l with Some (ODict _) => true | _ => false end
  | Ttuple, VRef l => match h !! l with Some (OTuple _) => true | _ => false end
  | _, _ => false
  end.

(** *** Dictionary items

    Keys compare with Python's [==] on hashable scalars: [True == 1] and
    [False == 0]; references compare by identity. *)
Definition key_norm (k : val) : val :=
  match k with
  | VBool b => VInt (if b then 1%Z else 0%Z)
  | _ => k
  end.

Definition key_eqb (a b : val) : bool := bool_decide (key_norm a = key_norm b).

Fixpoint dict_get (k : val) (items : list (val * val)) : option val :=
  match items with
  | [] => None
  | (k', v) :: rest => if key_eqb k k' then Some v else dict_get k rest
  end.

(** [d[k] = v]: an existing key keeps its place (and its key object). *)
Fixpoint dict_set (k v : val) (items : list (val * val)) : list (val * val) :=
  match items with
  | [] => [(k, v)]
  | (k', v') :: rest =>
      if key_eqb k k' then (k', v) :: rest else (k', v') :: dict_set k v rest
  end.

(** [d.update(other)] on the items. *)
Definition dict_update (items other : list (val * val)) : list (val * val) :=
  foldl (λ acc kv, dict_set kv.1 kv.2 acc) items other.

(** *** Strings *)

Fixpoint starts_with (p s : string) : bool :=
  match p, s with
  | EmptyString, _ => true
  | String a p', String b s' => bool_decide (a = b) && starts_with p' s'
  | String _ _, EmptyString => false
  end.

(** [p in s] for two strings. *)
Fixpoint substringb (p s : string) : bool :=
  starts_with p s ||
  match s with
  | EmptyString => false
  | String _ s' => substringb p s'
  end.

(** [s.split(sep)] for a one-character separator. *)
Fixpoint split_on (sep : ascii) (s : string) : list string :=
  match s with
  | EmptyString => [EmptyString]
  | String c s' =>
      if bool_decide (c = sep) then EmptyString :: split_on sep s'
      else match split_on sep s' with
           | p :: ps => String c p :: ps
           | [] => [String c EmptyString]
           end
  end.

(** [sep.join(parts)] *)
Fixpoint join (sep : string) (parts : list string) : string :=
  match parts with
  | [] => EmptyString
  | [p] => p
  | p :: rest => p +:+ sep +:+ join sep rest
  end.

(** ** Exceptions *)

Inductive msg :=
  | RequiredKeyNotPresent (key : string)
  | NotOfType (key : string) (t : pytype)
  | CheckLevelNotAllowed
  | ChecksEmpty
  | CouldNotParseDict
  | InvalidParameters (inner : msg)
  (* messages of the interpreter's own errors *)
  | NotIterable
  | BadIndex
  | NotSubscriptable
  | IntersectionNeedsArgument
  | EmptyModuleName
  | RelativeImportNeedsPackage
  | BadArgument.

Inductive exn :=
  | ValueError (m : msg)
  | TypeError (m : msg)
  | KeyError (key : string)
  | ImportError (name : string)
  | AttributeError (name : string)
  | OSError (path : string)
  | YAMLError
  (* a reference to no object: an ill-formed store, not a Python error *)
  | Dangling (l : loc).

#[global] Instance msg_eq_dec : EqDecision msg.
Proof. solve_decision. Defined.

#[global] Instance exn_eq_dec : EqDecision exn.
Proof. solve_decision. Defined.

Inductive result (A : Type) :=
  | Ok (a : A)
  | Raise (e : exn).
Arguments Ok {A} a.
Arguments Raise {A} e.

(** ** The monad: a store threaded through, exceptions keep the store *)

Definition M (A : Type) : Type := heap → result A * heap.

#[global] Instance M_ret : MRet M := λ A a h, (Ok a, h).

#[global] Instance M_bind : MBind M := λ A B f m h,
  match m h with
  | (Ok a, h') => f a h'
  | (Raise e, h') => (Raise e, h')
  end.

Definition raise {A} (e : exn) : M A := λ h, (Raise e, h).

(** [try: m except (ValueError, TypeError) as ex: raise ex.__class__(wrap ex)] *)
Definition rewrap {A} (wrap : msg → msg) (m : M A) : M A := λ h,
  match m h with
  | (Raise (ValueError e), h') => (Raise (ValueError (wrap e)), h')
  | (Raise (TypeError e), h') => (Raise (TypeError (wrap e)), h')
  | r => r
  end.

(** Store primitives. *)
Definition read (l : loc) : M obj := λ h,
  match h !! l with
  | Some o => (Ok o, h)
  | None => (Raise (Dangling l), h)
  end.

Definition alloc (o : obj) : M loc := λ h, (Ok (length h), h ++ [o]).

Definition write (l : loc) (o : obj) : M unit := λ h,
  match h !! l with
  | Some _ => (Ok tt, <[l := o]> h)
  | None => (Raise (Dangling l), h)
  end.

(** [for x in xs: body(x)] *)
Fixpoint for_each {A} (xs : list A) (body : A → M unit) : M unit :=
  match xs with
  | [] => mret tt
  | x :: rest => body x;; for_each rest body
  end.

(** *** Operators on values *)

(** [key in d], for a text key. *)
Definition py_contains (key : string) (d : val) : M bool :=
  match d with
  | VRef l =>
      o ← read l;
      match o with
      | ODict items => mret (bool_decide (is_Some (dict_get (VStr key) items)))
      | OList xs | OTuple xs => mret (existsb (key_eqb (VStr key)) xs)
      end
  | VStr s => mret (substringb key s)
  | _ => raise (TypeError NotIterable)
  end.

(** [d[key]], for a text key. *)
Definition py_getitem (d : val) (key : string) : M val :=
  match d with
  | VRef l =>
      o ← read l;
      match o with
      | ODict items =>
          match dict_get (VStr key) items with
          | Some v => mret v
          | None => raise (KeyError key)
          end
      | OList _ | OTuple _ => raise (TypeError BadIndex)
      end
  | VStr _ => raise (TypeError BadIndex)
  | _ => raise (TypeError NotSubscriptable)
  end.

(** [d.get(key, default)] on a dictionary. *)
Definition py_get (d : val) (key : string) (default : val) : M val :=
  match d with
  | VRef l =>
      o ← read l;
      match o with
      | ODict items => mret (from_option id default (dict_get (VStr key) items))
      | _ => raise (AttributeError "get")
      end
  | _ => raise (AttributeError "get")
  end.

Definition py_isinstance (v : val) (t : pytype) : M bool :=
  λ h, (Ok (isinstance h v t), h).

(** The elements a [for] loop over [v] visits. *)
Definition py_iter (v : val) : M (list val) :=
  match v with
  | VRef l =>
      o ← read l;
      match o with
      | OList xs | OTuple xs => mret xs
      | ODict items => mret (items.*1)
      end
  | VStr s => mret ((λ c, VStr (String c EmptyString)) <$> String.list_ascii_of_string s)
  | _ => raise (TypeError NotIterable)
  end.

(** [len(v)] *)
Definition py_len (v : val) : M nat :=
  match v with
  | VRef l =>
      o ← read l;
      match o with
      | OList xs | OTuple xs => mret (length xs)
      | ODict items => mret (length items)
      end
  | VStr s => mret (String.length s)
  | _ => raise (TypeError NotIterable)
  end.

(** [{}] *)
Definition new_dict : M val := l ← alloc (ODict []); mret (VRef l).

(** [d.update(other)] where [other]'s items are given. *)
Definition py_update_items (d : val) (other : list (val * val)) : M unit :=
  match d with
  | VRef l =>
      o ← read l;
      match o with
      | ODict items => write l (ODict (dict_update items other))
      | _ => raise (AttributeError "update")
      end
  | _ => raise (AttributeError "update")
  end.

(** [d.update(other)] where [other] is a dictionary object. *)
Definition py_update (d other : val) : M unit :=
  match other with
  | VRef l =>
      o ← read l;
      match o with
      | ODict items => py_update_items d items
      | _ => raise (TypeError NotIterable)
      end
  | _ => raise (TypeError NotIterable)
  end.

(** *** Literals

    A document as the YAML loader returns it, or a literal of a test: a
    tree of fresh objects. *)
#[warnings="-register-all"]
Inductive tree :=
  | YNone
  | YBool (b : bool)
  | YInt (z : Z)
  | YStr (s : string)
  | YOther (tag : nat)
  | YList (xs : list tree)
  | YTuple (xs : list tree)
  | YDict (items : list (tree * tree)).

(** Building the objects of a literal, innermost first. *)
Fixpoint build (t : tree) : M val :=
  match t with
  | YNone => mret VNone
  | YBool b => mret (VBool b)
  | YInt z => mret (VInt z)
  | YStr s => mret (VStr s)
  | YOther n => mret (VOther n)
  | YList ts =>
      vs ← (fix go ts : M (list val) :=
              match ts with
              | [] => mret []
              | t :: ts' => v ← build t; vs ← go ts'; mret (v :: vs)
              end) ts;
      l ← alloc (OList vs); mret (VRef l)
  | YTuple ts =>
      vs ← (fix go ts : M (list val) :=
              match ts with
              | [] => mret []
              | t :: ts' => v ← build t; vs ← go ts'; mret (v :: vs)
              end) ts;
      l ← alloc (OTuple vs); mret (VRef l)
  | YDict items =>
      kvs ← (fix go items : M (list (val * val)) :=
               match items with
               | [] => mret []
               | (k, v) :: rest =>
                   k' ← build k; v' ← build v; r ← go rest; mret ((k', v') :: r)
               end) items;
      l ← alloc (ODict (dict_update [] kvs)); mret (VRef l)
  end.

(** The value and the store that building a literal in the empty store
    gives. *)
Definition value_of (t : tree) : val :=
  match (build t []).1 with Ok v => v | Raise _ => VNone end.

Definition store_of (t : tree) : heap := (build t []).2.

End Py.

(** ** [class YamlParser] *)

Module YamlParser.
Import Py.

(** [validate_field(cls, key, val_type, d, required)] *)
Definition validate_field
    (key : string) (val_type : pytype) (d : val) (required : bool) : M unit :=
  (* required and key not in d *)
  missing ← (if required then present ← py_contains key d; mret (negb present)
             else mret false);
  if (missing : bool) then raise (ValueError (RequiredKeyNotPresent key))
  else
    (* key in d and not isinstance(d[key], val_type) *)
    present ← py_contains key d;
    bad ← (if (present : bool)
           then v ← py_getitem d key;
                ok ← py_isinstance v val_type;
                mret (negb ok)
           else mret false);
    if (bad : bool) then raise (TypeError (NotOfType key val_type))
    else mret tt.

(** The three tables of [validate_config], in the order they are written
    (a [dict] is iterated in insertion order). *)
Definition required_global : list (string * pytype) :=
  [("checks", Tlist); ("suite_name", Tstr)].

Definition required_percheck : list (string * pytype) :=
  [("check_id", Tstr); ("parameters", Tdict); ("check_name", Tstr)].

Definition optional_percheck : list (string * pytype) :=
  [("check_level", Tstr)].

Definition allowed_levels : list string := ["HIGH"; "MEDIUM"; "LOW"].

(** [v in allowed]: equality of [v] with one of the strings. *)
Definition py_in_strings (v : val) (allowed : list string) : bool :=
  existsb (λ s, bool_decide (v = VStr s)) allowed.

(** [for f_name, f_type in table.items(): cls.validate_field(f_name, f_type, d, required)] *)
Definition validate_fields
    (table : list (string * pytype)) (d : val) (required : bool) : M unit :=
  for_each table (λ f, validate_field f.1 f.2 d required).

(** The body of the loop over [config["checks"]]. *)
Definition validate_check_info (check_info : val) : M unit :=
  validate_fields required_percheck check_info true;;
  validate_fields optional_percheck check_info false;;
  present ← py_contains "check_level" check_info;
  bad ← (if (present : bool)
         then level ← py_getitem check_info "check_level";
              mret (negb (py_in_strings level allowed_levels))
         else mret false);
  if (bad : bool) then raise (ValueError CheckLevelNotAllowed) else mret tt.

(** [validate_config(cls, config)] *)
Definition validate_config (config : val) : M unit :=
  validate_fields required_global config true;;
  checks ← py_getitem config "checks";
  check_infos ← py_iter checks;
  for_each check_infos validate_check_info;;
  checks ← py_getitem config "checks";
  n ← py_len checks;
  if bool_decide (n = 0) then raise (ValueError ChecksEmpty) else mret tt.

(** *** Check implementations

    The classes that [check_name] refers to are external.  What the parser
    uses of one is its class attributes [defaults], [required_parameters]
    (which may be absent) and [supported_ds], its constructor, called with
    the merged parameters and the level, and [do_check] of the instance.
    Dataset-type markers are any hashable values. *)

Section assembler.
Context {DS : Type} `{Countable DS}.

Record check_cls := {
  cls_defaults : list (val * val);
  cls_required_parameters : option (list (string * pytype));
  cls_supported_ds : list DS;
  (* do_check of an instance holding these parameters and this level *)
  cls_do_check : val → val → val → M val;
}.

(** An instance owns the parameters object and the level it was built
    with. *)
Record instance := {
  inst_cls : check_cls;
  inst_kwargs : val;
  inst_level : val;
}.

(** [check_cls(params, level=level_str)] *)
Definition construct (c : check_cls) (params level : val) : M instance :=
  mret {| inst_cls := c; inst_kwargs := params; inst_level := level |}.

(** [c.do_check(ds)] *)
Definition do_check (c : instance) (ds : val) : M val :=
  cls_do_check (inst_cls c) (inst_kwargs c) (inst_level c) ds.

(** The function object made by [def inner(self, ds, c=check_instance)]:
    its name and the default of [c], evaluated when the [def] is run. *)
Record function := {
  fn_name : string;
  fn_default_c : instance;
}.

(** Calling [inner(self, ds)]: [c] takes its default. *)
Definition call_inner (f : function) (self ds : val) : M val :=
  let c := fn_default_c f in
  do_check c ds.

Inductive attr :=
  | Method (f : function)
  | Attribute (ds : list DS).

(** What [type(name, bases, dict)] returns. *)
Record pyclass := {
  class_name : string;
  class_bases : list string;
  class_dict : gmap string attr;
}.

(** What [yaml.load(open(filename))] comes to: a document, or the failure
    of [open], or that of the parser. *)
Inductive document :=
  | Parsed (t : tree)
  | Unreadable
  | Unparseable.

(** The modules that can be imported, each with its members, and the
    files. *)
Record environment := {
  env_modules : string → option (string → option check_cls);
  env_yaml : string → document;
}.

(** [importlib.import_module(name)], called without a package: a name
    that starts with a dot is a relative import, which is refused; then
    the empty name is. *)
Definition import_module (env : environment) (name : string)
    : M (string → option check_cls) :=
  if starts_with "." name then raise (TypeError RelativeImportNeedsPackage)
  else if bool_decide (name = "") then raise (ValueError EmptyModuleName)
  else match env_modules env name with
       | Some m => mret m
       | None => raise (ImportError name)
       end.

(** [getattr(module, name)] *)
Definition getattr (module : string → option check_cls) (name : string)
    : M check_cls :=
  match module name with
  | Some c => mret c
  | None => raise (AttributeError name)
  end.

(** [v.split(".")] *)
Definition py_split (v : val) : M (list string) :=
  match v with
  | VStr s => mret (split_on "." s)
  | _ => raise (AttributeError "split")
  end.

(** ["check_{}".format(v)]; only text reaches it (its field is validated
    before), other values are reported as a key error of the field. *)
Definition format_check (v : val) : M string :=
  match v with
  | VStr s => mret ("check_" +:+ s)
  | _ => raise (KeyError "check_id")
  end.

(** [type(name, (BaseCheck,), class_properties)] *)
Definition py_type (name : val) (bases : list string) (d : gmap string attr)
    : M pyclass :=
  match name with
  | VStr s => mret {| class_name := s; class_bases := bases; class_dict := d |}
  | _ => raise (TypeError BadArgument)
  end.

(** [set.intersection] applied to the unpacked list of sets *)
Definition set_intersection (sets : list (gset DS)) : M (gset DS) :=
  match sets with
  | [] => raise (TypeError IntersectionNeedsArgument)
  | s :: rest => mret (foldl (∩) s rest)
  end.

(** [for x in xs: state = body(state, x)] *)
Fixpoint for_fold {A S} (xs : list A) (body : S → A → M S) (s : S) : M S :=
  match xs with
  | [] => mret s
  | x :: rest => s' ← body s x; for_fold rest body s'
  end.

(** The blocks of an iteration of the loop of [get_checker_class].

    [parts = check_name.split("."); module = import_module(".".join(parts[:-1]));
     check_cls = getattr(module, parts[-1])] *)
Definition resolve_check (env : environment) (check_name : val) : M check_cls :=
  parts ← py_split check_name;
  module ← import_module env (join "." (take (length parts - 1) parts));
  getattr module (default "" (last parts)).

(** [params = {}; params.update(check_cls.defaults);
     params.update(check_info["parameters"])] *)
Definition merge_params (c : check_cls) (check_info : val) : M val :=
  params ← new_dict;
  py_update_items params (cls_defaults c);;
  parameters ← py_getitem check_info "parameters";
  py_update params parameters;;
  mret params.

(** [if hasattr(check_cls, "required_parameters"): try: ... except ...] *)
Definition validate_parameters (c : check_cls) (params : val) : M unit :=
  match cls_required_parameters c with
  | Some required =>
      rewrap InvalidParameters
        (for_each required (λ f, validate_field f.1 f.2 params true))
  | None => mret tt
  end.

(** From [method_name = ...] to [check_instance = check_cls(...)]. *)
Definition build_instance (env : environment) (check_info : val)
    : M (string * check_cls * instance) :=
  check_id ← py_getitem check_info "check_id";
  method_name ← format_check check_id;
  (* Instantiate a check object using the params from the config *)
  check_name ← py_getitem check_info "check_name";
  check_cls ← resolve_check env check_name;
  (* Validate parameters *)
  params ← merge_params check_cls check_info;
  validate_parameters check_cls params;;
  level_str ← py_get check_info "check_level" VNone;
  check_instance ← construct check_cls params level_str;
  mret (method_name, check_cls, check_instance).

(** One iteration: the two containers being filled are the state. *)
Definition check_step (env : environment)
    (st : gmap string attr * list (gset DS)) (check_info : val)
    : M (gmap string attr * list (gset DS)) :=
  '(method_name, check_cls, check_instance) ← build_instance env check_info;
  let inner := {| fn_name := method_name; fn_default_c := check_instance |} in
  let class_properties := <[method_name := Method inner]> st.1 in
  let supported_ds_sets := st.2 ++ [list_to_set (cls_supported_ds check_cls)] in
  mret (class_properties, supported_ds_sets).

(** The head of [get_checker_class]: a file name is opened and parsed. *)
Definition load_config (env : environment) (config : val) : M val :=
  match config with
  | VStr filename =>
      match env_yaml env filename with
      | Parsed t =>
          config ← build t;
          is_dict ← py_isinstance config Tdict;
          if (is_dict : bool) then mret config
          else raise (TypeError CouldNotParseDict)
      | Unreadable => raise (OSError filename)
      | Unparseable => raise YAMLError
      end
  | _ => mret config
  end.

(** The rest of [get_checker_class], from [cls.validate_config(config)]. *)
Definition assemble (env : environment) (config : val) : M pyclass :=
  validate_config config;;
  checks ← py_getitem config "checks";
  check_infos ← py_iter checks;
  st ← for_fold check_infos (check_step env) (∅, []);
  (* Supported dataset types will be those that are supported by ALL checks *)
  common ← set_intersection st.2;
  let class_properties := <["supported_ds" := Attribute (elements common)]> st.1 in
  suite_name ← py_getitem config "suite_name";
  py_type suite_name ["BaseCheck"] class_properties.

(** [get_checker_class(cls, config)] *)
Definition get_checker_class (env : environment) (config : val) : M pyclass :=
  config ← load_config env config;
  assemble env config.

End assembler.

Arguments check_cls : clear implicits.
Arguments instance : clear implicits.
Arguments function : clear implicits.
Arguments attr : clear implicits.
Arguments environment : clear implicits.
Arguments pyclass : clear implicits.

End YamlParser.

(** ** The check classes of [cc_yaml/tests.py]

    Dataset types are integers there.  [ParameterisableCheckBase] is the
    external base class: no defaults, no required parameters, and a
    [do_check] that the test classes either override or never call. *)

Module Tests.
Import Py YamlParser.

Definition ParameterisableCheckBase : check_cls Z := {|
  cls_defaults := [];
  cls_required_parameters := None;
  cls_supported_ds := [];
  cls_do_check := λ _ _ _, raise (AttributeError "do_check");
|}.

Definition SupportDsTestCheckClass1 : check_cls Z := {|
  cls_defaults := [];
  cls_required_parameters := None;
  cls_supported_ds := [1; 2; 3]%Z;
  cls_do_check := cls_do_check ParameterisableCheckBase;
|}.

Definition SupportDsTestCheckClass2 : check_cls Z := {|
  cls_defaults := [];
  cls_required_parameters := None;
  cls_supported_ds := [2; 3; 4]%Z;
  cls_do_check := cls_do_check ParameterisableCheckBase;
|}.

Definition RequiredParamsTestCheckClass : check_cls Z := {|
  cls_defaults := [];
  cls_required_parameters :=
    Some [("one", Tstr); ("two", Tlist); ("three", Tdict); ("four", Tint)];
  cls_supported_ds := [];
  cls_do_check := cls_do_check ParameterisableCheckBase;
|}.

(** [do_check] returns [self.kwargs["one"]]. *)
Definition DefaultParamsTestCheckClass : check_cls Z := {|
  cls_defaults := [(VStr "one", VStr "hello")];
  cls_required_parameters := Some [("one", Tstr)];
  cls_supported_ds := [];
  cls_do_check := λ kwargs _ _, py_getitem kwargs "one";
|}.

(** The module [cc_yaml.tests] is the only one importable here; no file is
    readable. *)
Definition members (name : string) : option (check_cls Z) :=
  if bool_decide (name = "SupportDsTestCheckClass1") then Some SupportDsTestCheckClass1
  else if bool_decide (name = "SupportDsTestCheckClass2") then Some SupportDsTestCheckClass2
  else if bool_decide (name = "RequiredParamsTestCheckClass") then Some RequiredParamsTestCheckClass
  else if bool_decide (name = "DefaultParamsTestCheckClass") then Some DefaultParamsTestCheckClass
  else None.

Definition env : environment Z := {|
  env_modules := λ name, if bool_decide (name = "cc_yaml.tests") then Some members else None;
  env_yaml := λ _, Unreadable;
|}.

(** [get_import_string] *)
Definition get_import_string (cls : string) : string := "cc_yaml.tests" +:+ "." +:+ cls.

(** A check entry as the tests write them. *)
Definition entry (check_id check_name : string) (parameters : list (tree * tree)) : tree :=
  YDict [(YStr "check_id", YStr check_id); (YStr "parameters", YDict parameters);
         (YStr "check_name", YStr check_name)].

Definition suite (suite_name : string) (checks : list tree) : tree :=
  YDict [(YStr "suite_name", YStr suite_name); (YStr "checks", YList checks)].

(** [test_supported_ds] *)
Definition supported_ds_config : tree :=
  suite "test_suite"
    [entry "one" (get_import_string "SupportDsTestCheckClass1") [];
     entry "one" (get_import_string "SupportDsTestCheckClass2") []].

(** [test_default_parameters] *)
Definition default_parameters_config : tree :=
  suite "test_suite" [entry "one" (get_import_string "DefaultParamsTestCheckClass") []].

(** The last of [invalid_configs] in [test_missing_keys]. *)
Definition missing_parameters_config : tree :=
  YDict [(YStr "suite_name", YStr "hello");
         (YStr "checks", YList [YDict [(YStr "check_id", YStr "one")]])].

(** [c4] of [test_invalid_types], with the other two fields left out. *)
Definition wrong_type_missing_id_entry : tree :=
  YDict [(YStr "parameters", YInt 0)].

Definition wrong_type_missing_id_config : tree :=
  suite "hello" [wrong_type_missing_id_entry].

(** [c3] of [test_invalid_types], given a level that is not allowed. *)
Definition bad_level_wrong_id_entry : tree :=
  YDict [(YStr "check_id", YDict []); (YStr "parameters", YDict []);
         (YStr "check_name", YStr "checklib.register.FileSizeCheck");
         (YStr "check_level", YStr "CRITICAL")].

(** An entry whose only fault is its level. *)
Definition bad_level_entry : tree :=
  YDict [(YStr "check_id", YStr "one"); (YStr "parameters", YDict []);
         (YStr "check_name", YStr "checklib.register.FileSizeCheck");
         (YStr "check_level", YStr "CRITICAL")].

(** [test_no_checks] without its suite name. *)
Definition no_checks_no_name_config : tree :=
  YDict [(YStr "checks", YList [])].

End Tests.

(** ** Reading a configuration off the store

    These functions are not part of the program: they say what a validated
    configuration looks like in the store, and the theorems below state
    what the program does in terms of them. *)

Module View.
Import Py YamlParser.

(** The fields of a check entry that the assembler uses. *)
Record entry_data := {
  ed_id : string;
  ed_name : string;
  ed_params : list (val * val);
  ed_level : option val;
}.

Definition view_entry (h : heap) (e : val) : option entry_data :=
  match e with
  | VRef l =>
      match h !! l with
      | Some (ODict items) =>
          match dict_get (VStr "check_id") items,
                dict_get (VStr "parameters") items,
                dict_get (VStr "check_name") items with
          | Some (VStr check_id), Some (VRef lp), Some (VStr check_name) =>
              match h !! lp with
              | Some (ODict params) =>
                  Some {| ed_id := check_id; ed_name := check_name;
                          ed_params := params;
                          ed_level := dict_get (VStr "check_level") items |}
              | _ => None
              end
          | _, _, _ => None
          end
      | _ => None
      end
  | _ => None
  end.

(** [check_level] is absent or one of the allowed levels. *)
Definition level_ok (level : option val) : bool :=
  match level with
  | None => true
  | Some v => py_in_strings v allowed_levels
  end.

Definition valid_entry (h : heap) (e : val) : bool :=
  match view_entry h e with
  | Some d => level_ok (ed_level d)
  | None => false
  end.

(** The suite name and the check entries of a configuration. *)
Definition view_config (h : heap) (c : val) : option (string * list val) :=
  match c with
  | VRef l =>
      match h !! l with
      | Some (ODict items) =>
          match dict_get (VStr "checks") items,
                dict_get (VStr "suite_name") items with
          | Some (VRef lc), Some (VStr suite_name) =>
              match h !! lc with
              | Some (OList check_infos) => Some (suite_name, check_infos)
              | _ => None
              end
          | _, _ => None
          end
      | _ => None
      end
  | _ => None
  end.

(** A configuration that [validate_config] accepts. *)
Definition valid_config (h : heap) (c : val) : bool :=
  match view_config h c with
  | Some (_, check_infos) =>
      bool_decide (check_infos ≠ []) && forallb (valid_entry h) check_infos
  | None => false
  end.

(** The errors of a field check: a missing key, a wrong type, or the
    interpreter's complaint about a value that is no mapping. *)
Definition field_error (x : exn) : bool :=
  match x with
  | ValueError (RequiredKeyNotPresent _) => true
  | TypeError (NotOfType _ _) => true
  | TypeError NotIterable | TypeError BadIndex | TypeError NotSubscriptable => true
  | Dangling _ => true
  | _ => false
  end.

Definition is_value_error (x : exn) : bool :=
  match x with ValueError _ => true | _ => false end.

Definition is_type_error (x : exn) : bool :=
  match x with TypeError _ => true | _ => false end.


(** The outcome of the field checks on the items of a mapping. *)
Definition field_result
    (h : heap) (items : list (val * val)) (key : string) (t : pytype)
    (required : bool) : result unit :=
  match dict_get (VStr key) items with
  | None => if required then Raise (ValueError (RequiredKeyNotPresent key)) else Ok tt
  | Some v => if isinstance h v t then Ok tt else Raise (TypeError (NotOfType key t))
  end.

Fixpoint fields_result
    (h : heap) (items : list (val * val)) (table : list (string * pytype))
    (required : bool) : result unit :=
  match table with
  | [] => Ok tt
  | f :: rest =>
      match field_result h items f.1 f.2 required with
      | Ok _ => fields_result h items rest required
      | Raise x => Raise x
      end
  end.

Definition level_result (items : list (val * val)) : result unit :=
  match dict_get (VStr "check_level") items with
  | None => Ok tt
  | Some v => if py_in_strings v allowed_levels then Ok tt
              else Raise (ValueError CheckLevelNotAllowed)
  end.

Definition entry_result (h : heap) (items : list (val * val)) : result unit :=
  match fields_result h items required_percheck true with
  | Ok _ =>
      match fields_result h items optional_percheck false with
      | Ok _ => level_result items
      | Raise x => Raise x
      end
  | Raise x => Raise x
  end.

(** A computation that leaves the store as it found it. *)
Definition reads {A} (m : M A) : Prop := ∀ h, (m h).2 = h.

(** A computation that only adds objects to the store. *)
Definition extends {A} (m : M A) : Prop := ∀ h, h `prefix_of` (m h).2.

(** A computation that always returns. *)
Definition returns {A} (m : M A) : Prop := ∀ h, ∃ a h', m h = (Ok a, h').

End View.


(** ** What the assembler builds, read off the store *)

Module AView.
Import Py YamlParser View.

Section with_ds.
Context {DS : Type} `{Countable DS}.

(** The outcome of the required-parameter checks on merged items. *)
Definition params_result
    (c : check_cls DS) (h : heap) (merged : list (val * val)) : result unit :=
  match cls_required_parameters c with
  | None => Ok tt
  | Some required =>
      match fields_result h merged required true with
      | Raise (ValueError m) => Raise (ValueError (InvalidParameters m))
      | Raise (TypeError m) => Raise (TypeError (InvalidParameters m))
      | r => r
      end
  end.

(** The class a check name resolves to; no store is involved. *)
Definition resolve (env : environment DS) (check_name : string)
    : result (check_cls DS) :=
  (resolve_check env (VStr check_name) []).1.

(** The merged parameters of an entry: defaults, then the entry's own. *)
Definition merged_items (c : check_cls DS) (params : list (val * val))
    : list (val * val) :=
  dict_update (dict_update [] (cls_defaults c)) params.

(** The class each entry of a configuration resolves to. *)
Definition resolved_class (env : environment DS) (h : heap) (e : val)
    : option (check_cls DS) :=
  match view_entry h e with
  | Some d => match resolve env (ed_name d) with Ok c => Some c | Raise _ => None end
  | None => None
  end.

Definition resolved_classes (env : environment DS) (h : heap) (c : val)
    : option (list (check_cls DS)) :=
  match view_config h c with
  | Some (_, check_infos) => mapM (resolved_class env h) check_infos
  | None => None
  end.

(** The loop of [get_checker_class] seen as the run of its iterations:
    what each iteration builds, in order. *)
Fixpoint build_all (env : environment DS) (check_infos : list val)
    : M (list (string * check_cls DS * instance DS)) :=
  match check_infos with
  | [] => mret []
  | e :: rest =>
      t ← build_instance env e; ts ← build_all env rest; mret (t :: ts)
  end.

(** [t] is what the iteration for entry [e] built: its method name, the
    class its check name resolves to, and an instance of that class whose
    parameters are a fresh object holding the merged items and whose level
    is the entry's.  [h0] is the store the configuration was validated in,
    [h'] the store when the assembly ends. *)
Definition built_for (env : environment DS) (h0 h' : heap) (e : val)
    (t : string * check_cls DS * instance DS) : Prop :=
  ∃ d l,
    view_entry h0 e = Some d ∧
    resolve env (ed_name d) = Ok t.1.2 ∧
    t.1.1 = "check_" +:+ ed_id d ∧
    t.2 = {| inst_cls := t.1.2; inst_kwargs := VRef l;
             inst_level := from_option id VNone (ed_level d) |} ∧
    (length h0 ≤ l)%nat ∧
    h' !! l = Some (ODict (merged_items t.1.2 (ed_params d))).

(** What an iteration adds to the two containers. *)
Definition add_check
    (st : gmap string (attr DS) * list (gset DS))
    (t : string * check_cls DS * instance DS)
    : gmap string (attr DS) * list (gset DS) :=
  (<[t.1.1 := Method {| fn_name := t.1.1; fn_default_c := t.2 |}]> st.1,
   st.2 ++ [list_to_set (cls_supported_ds t.1.2)]).

(** The sets an assembly collects, and what they have in common. *)
Definition ds_sets (ts : list (string * check_cls DS * instance DS))
    : list (gset DS) :=
  (λ t, list_to_set (cls_supported_ds t.1.2)) <$> ts.

Definition intersection (sets : list (gset DS)) : gset DS :=
  match sets with
  | [] => ∅
  | s :: rest => foldl (∩) s rest
  end.

(** The class that an assembly which built [ts] returns. *)
Definition generated (suite_name : string)
    (ts : list (string * check_cls DS * instance DS)) : pyclass DS :=
  {| class_name := suite_name;
     class_bases := ["BaseCheck"];
     class_dict :=
       <["supported_ds" := Attribute (elements (intersection (ds_sets ts)))]>
         (foldl add_check (∅, []) ts).1 |}.

(** The method names of a generated class. *)
Definition method_names (ty : pyclass DS) : gset string :=
  dom (class_dict ty) ∖ {["supported_ds"]}.

(** Its [supported_ds] attribute. *)
Definition supported_ds (ty : pyclass DS) : option (list DS) :=
  match class_dict ty !! "supported_ds" with
  | Some (Attribute ds) => Some ds
  | _ => None
  end.

(** Its method of a given name. *)
Definition method (ty : pyclass DS) (name : string) : option (function DS) :=
  match class_dict ty !! name with
  | Some (Method f) => Some f
  | _ => None
  end.

End with_ds.
End AView.

(** ** Statements that the checks below are measured against *)

Module Stated.
Import Py YamlParser View AView.

(** The value of a field of a mapping, when the value is a mapping that
    has it. *)
Definition field (h : heap) (c : val) (key : string) : option val :=
  match c with
  | VRef l =>
      match h !! l with
      | Some (ODict items) => dict_get (VStr key) items
      | _ => None
      end
  | _ => None
  end.

(** [checks] is there and is the empty list. *)
Definition checks_empty (h : heap) (c : val) : Prop :=
  ∃ lc, field h c "checks" = Some (VRef lc) ∧ h !! lc = Some (OList []).

(** "Validation succeeds for every configuration in which both required
    top-level fields are present with the correct types and the checks
    sequence contains at least one entry." *)
Definition top_level_fields_suffice : Prop :=
  ∀ (h : heap) c suite_name lc check_infos,
    field h c "suite_name" = Some (VStr suite_name) →
    field h c "checks" = Some (VRef lc) →
    h !! lc = Some (OList check_infos) →
    check_infos ≠ [] →
    (validate_config c h).1 = Ok tt.

(** "For every check entry containing a required field whose value has
    the wrong declared type, validation fails with the type-mismatch
    kind." *)
Definition wrong_type_always_type_error : Prop :=
  ∀ (h : heap) e key t v,
    (key, t) ∈ required_percheck →
    field h e key = Some v →
    isinstance h v t = false →
    ∃ m, (validate_check_info e h).1 = Raise (TypeError m).

(** "For every check entry whose present check_level value is text but
    not one of HIGH, MEDIUM, LOW, validation signals the value-problem
    kind." *)
Definition bad_level_always_value_error : Prop :=
  ∀ (h : heap) e level,
    field h e "check_level" = Some (VStr level) →
    level ∉ allowed_levels →
    ∃ m, (validate_check_info e h).1 = Raise (ValueError m).

(** "Calling check_<id_k> on the generated type invokes do_check on the
    instance built for entry k", for every entry. *)
Definition every_entry_keeps_its_method
    {DS : Type} `{Countable DS} (env : environment DS) : Prop :=
  ∀ c (h h' h0 : heap) ty cfg suite_name es ts k name cls inst,
    get_checker_class env c h = (Ok ty, h') →
    load_config env c h = (Ok cfg, h0) →
    view_config h0 cfg = Some (suite_name, es) →
    build_all env es h0 = (Ok ts, h') →
    ts !! k = Some (name, cls, inst) →
    ∃ f, method ty name = Some f ∧ fn_default_c f = inst.

End Stated.

(** ** [class SuiteGenerator] *)

Module SuiteGenerator.
Import Py YamlParser.

(** The arguments object that [get_suites] is given: of it, only
    [yaml_files] is used. *)
Record arguments := { yaml_files : list string }.

Section generator.
Context {DS : Type} `{Countable DS}.

(** [get_suites(cls, args)] *)
Definition get_suites (env : environment DS) (args : arguments)
    : M (gmap string (pyclass DS)) :=
  for_fold (yaml_files args)
    (λ suites filename,
       suite ← get_checker_class env (VStr filename);
       mret (<[class_name suite := suite]> suites))
    ∅.

End generator.
End SuiteGenerator.

(** ** Well-formed stores and further examples *)

Module Shape.
Import Py YamlParser.

(** A value that is not a reference to nowhere. *)
Definition bound (h : heap) (v : val) : Prop :=
  match v with
  | VRef l => is_Some (h !! l)
  | _ => True
  end.

(** The values an object holds. *)
Definition held (o : obj) : list val :=
  match o with
  | ODict items => items.*1 ++ items.*2
  | OList xs | OTuple xs => xs
  end.

(** A store whose objects hold no reference to nowhere. *)
Definition closed (h : heap) : Prop :=
  ∀ l o, h !! l = Some o → Forall (bound h) (held o).

(** Two lookups that are both absent, or both present with values that a
    type test does not tell apart. *)
Definition alike (h : heap) (t : pytype) (a b : option val) : Prop :=
  match a, b with
  | None, None => True
  | Some v, Some w => isinstance h v t = isinstance h w t
  | _, _ => False
  end.

End Shape.

(** Further inputs for the examples. *)

Module Examples.
Import Py YamlParser.

(** Two entries that differ by a key the parser does not know. *)
Definition plain_and_annotated : tree :=
  YList
    [Tests.entry "one" (Tests.get_import_string "SupportDsTestCheckClass1") [];
     YDict [(YStr "comment", YStr "checks the size");
            (YStr "check_id", YStr "one"); (YStr "parameters", YDict []);
            (YStr "check_name",
             YStr (Tests.get_import_string "SupportDsTestCheckClass1"))]].

(** The parameters of [test_parameter_validation]: without "three",
    with a list for "one", and complete. *)
Definition missing_three : list (tree * tree) :=
  [(YStr "one", YStr "string here");
   (YStr "two", YList [YStr "list"; YStr "of"; YStr "things"]);
   (YStr "four", YInt 14)].

Definition one_not_text : list (tree * tree) :=
  [(YStr "one", YList [YStr "not"; YStr "a"; YStr "string"]);
   (YStr "two", YList [YInt 1; YInt 2]);
   (YStr "three", YDict [(YInt 1, YInt 2)]);
   (YStr "four", YInt 14)].

Definition all_four : list (tree * tree) :=
  [(YStr "one", YStr "string here");
   (YStr "two", YList [YStr "list"; YStr "of"; YStr "things"]);
   (YStr "three", YDict [(YInt 1, YInt 2)]);
   (YStr "four", YInt 14)].

Definition required_params_entry (parameters : list (tree * tree)) : tree :=
  Tests.entry "one" (Tests.get_import_string "RequiredParamsTestCheckClass")
    parameters.

(** [test_class_gen], with two checks of the tests: two entries with
    different identifiers. *)
Definition two_checks_config : tree :=
  Tests.suite "test_suite"
    [Tests.entry "one" (Tests.get_import_string "SupportDsTestCheckClass1") [];
     Tests.entry "two" (Tests.get_import_string "SupportDsTestCheckClass2") []].

(** [c4] of [test_invalid_types]: the entry whose [parameters] is a
    number. *)
Definition parameters_not_mapping_entry : tree :=
  YDict [(YStr "check_id", YStr "one"); (YStr "parameters", YInt 0);
         (YStr "check_name", YStr "checklib.register.FileSizeCheck")].

(** Three entries: a valid one, one without [parameters], and one whose
    [check_id] is a mapping. *)
Definition second_entry_invalid_config : tree :=
  Tests.suite "hello"
    [Tests.entry "one" "checklib.register.FileSizeCheck" [];
     YDict [(YStr "check_id", YStr "two")];
     YDict [(YStr "check_id", YDict []); (YStr "parameters", YDict []);
            (YStr "check_name", YStr "checklib.register.FileSizeCheck")]].

(** An environment with the classes of the tests and a few files. *)
Definition sizes_config : tree :=
  Tests.suite "sizes"
    [Tests.entry "one" (Tests.get_import_string "SupportDsTestCheckClass2") []].

Definition documents (filename : string) : document :=
  if bool_decide (filename = "supported.yml") then Parsed Tests.supported_ds_config
  else if bool_decide (filename = "defaults.yml") then Parsed Tests.default_parameters_config
  else if bool_decide (filename = "sizes.yml") then Parsed sizes_config
  else if bool_decide (filename = "list.yml") then Parsed (YList [YStr "checks"])
  else if bool_decide (filename = "broken.yml") then Unparseable
  else Unreadable.

Definition env : environment Z := {|
  env_modules := env_modules Tests.env;
  env_yaml := documents;
|}.

End Examples.
(** ** The store discipline of the primitives *)

Module Frame.
Import Py View.

Lemma reads_eq {A} (m : M A) h : reads m → m h = ((m h).1, h).
Proof. intros Hm. specialize (Hm h). destruct (m h); simpl in *; congruence. Qed.

Lemma reads_extends {A} (m : M A) : reads m → extends m.
Proof. intros Hm h. by rewrite Hm. Qed.

Lemma reads_ret {A} (a : A) : reads (mret a).
Proof. done. Qed.

Lemma reads_raise {A} e : reads (@raise A e).
Proof. done. Qed.

Lemma reads_bind {A B} (m : M A) (f : A → M B) :
  reads m → (∀ a, reads (f a)) → reads (m ≫= f).
Proof.
  intros Hm Hf h. unfold mbind, M_bind.
  specialize (Hm h). destruct (m h) as [[a|e] h']; simpl in *; subst; [apply Hf | done].
Qed.

Lemma extends_bind {A B} (m : M A) (f : A → M B) :
  extends m → (∀ a, extends (f a)) → extends (m ≫= f).
Proof.
  intros Hm Hf h. unfold mbind, M_bind.
  specialize (Hm h). destruct (m h) as [[a|e] h']; simpl in *; [|done].
  etrans; [exact Hm | apply Hf].
Qed.

Lemma reads_rewrap {A} wrap (m : M A) : reads m → reads (rewrap wrap m).
Proof.
  intros Hm h. unfold rewrap. specialize (Hm h).
  destruct (m h) as [[a|[]] h']; simpl in *; done.
Qed.

Lemma reads_read l : reads (read l).
Proof. intros h. unfold read. by destruct (h !! l). Qed.

Lemma reads_for_each {A} (xs : list A) body :
  (∀ x, reads (body x)) → reads (for_each xs body).
Proof.
  intros Hb. induction xs as [|x xs IH]; simpl; [apply reads_ret|].
  apply reads_bind; auto.
Qed.

Lemma extends_alloc o : extends (alloc o).
Proof. intros h. simpl. by apply prefix_app_r. Qed.

Create HintDb frame.
#[export] Hint Resolve reads_ret reads_raise reads_read reads_rewrap : frame.

Ltac frame :=
  repeat first
    [ apply reads_ret | apply reads_raise | apply reads_read
    | apply reads_bind; [|intros ?]
    | apply reads_for_each; intros ?
    | apply reads_rewrap
    | progress eauto with frame
    | match goal with
      | |- reads (match ?x with _ => _ end) => destruct x
      | |- reads (if ?x then _ else _) => destruct x
      end ].

Lemma reads_py_contains key d : reads (py_contains key d).
Proof. unfold py_contains. frame. Qed.

Lemma reads_py_getitem d key : reads (py_getitem d key).
Proof. unfold py_getitem. frame. Qed.

Lemma reads_py_get d key dflt : reads (py_get d key dflt).
Proof. unfold py_get. frame. Qed.

Lemma reads_py_isinstance v t : reads (py_isinstance v t).
Proof. done. Qed.

Lemma reads_py_iter v : reads (py_iter v).
Proof. unfold py_iter. frame. Qed.

Lemma reads_py_len v : reads (py_len v).
Proof. unfold py_len. frame. Qed.

#[export] Hint Resolve reads_py_contains reads_py_getitem reads_py_get
  reads_py_isinstance reads_py_iter reads_py_len : frame.

End Frame.

(** ** The validator on the store *)

Module ValidatorFacts.
Import Py YamlParser View Frame.

#[local] Arguments py_in_strings : simpl never.

Ltac run :=
  unfold mbind, M_bind, mret, M_ret, raise, read, py_isinstance in *; simpl in *.

Lemma reads_validate_field key t d req : reads (validate_field key t d req).
Proof. unfold validate_field. frame. Qed.

#[export] Hint Resolve reads_validate_field : frame.

Lemma reads_validate_fields table d req : reads (validate_fields table d req).
Proof. unfold validate_fields. frame. Qed.

#[export] Hint Resolve reads_validate_fields : frame.

Lemma reads_validate_check_info e : reads (validate_check_info e).
Proof. unfold validate_check_info. frame. Qed.

#[export] Hint Resolve reads_validate_check_info : frame.

Lemma reads_validate_config c : reads (validate_config c).
Proof. unfold validate_config. frame. Qed.

(** On a dictionary, a field check is a lookup and a type test. *)
Lemma validate_field_dict h l items key t req :
  h !! l = Some (ODict items) →
  validate_field key t (VRef l) req h =
    (field_result h items key t req, h).
Proof.
  intros Hl. unfold field_result, validate_field, py_contains, py_getitem. run.
  destruct (dict_get (VStr key) items) as [v|] eqn:Hget;
    destruct req; repeat (progress (rewrite ?Hl, ?Hget; simpl));
    try destruct (isinstance h v t); done.
Qed.

(** A required field passes only on a dictionary that has it, well typed. *)
Lemma validate_field_required_ok h h' d key t :
  validate_field key t d true h = (Ok tt, h') →
  ∃ l items v, d = VRef l ∧ h !! l = Some (ODict items) ∧
    dict_get (VStr key) items = Some v ∧ isinstance h v t = true.
Proof.
  destruct d as [| | | s | |l]; try (unfold validate_field; run; discriminate).
  - unfold validate_field, py_contains, py_getitem. run.
    destruct (substringb key s); simpl; discriminate.
  - destruct (h !! l) as [[items|xs|xs]|] eqn:Hl.
    + rewrite (validate_field_dict _ _ _ _ _ _ Hl). unfold field_result.
      destruct (dict_get (VStr key) items) as [v|] eqn:Hget; [|discriminate].
      destruct (isinstance h v t) eqn:Hty; [|discriminate].
      intros _. eauto 10.
    + unfold validate_field, py_contains, py_getitem. run.
      destruct (existsb (key_eqb (VStr key)) xs) eqn:Hin;
        repeat (progress (rewrite ?Hl, ?Hin; simpl)); discriminate.
    + unfold validate_field, py_contains, py_getitem. run.
      destruct (existsb (key_eqb (VStr key)) xs) eqn:Hin;
        repeat (progress (rewrite ?Hl, ?Hin; simpl)); discriminate.
    + unfold validate_field, py_contains, py_getitem. run.
      repeat (progress (rewrite ?Hl; simpl)); discriminate.
Qed.

(** Whatever a field check raises is a field error. *)
Lemma validate_field_raises h h' d key t req x :
  validate_field key t d req h = (Raise x, h') → field_error x = true.
Proof.
  destruct d as [| | | s | |l];
    try (unfold validate_field; run; destruct req; simpl; intros; simplify_eq; done).
  - unfold validate_field, py_contains, py_getitem. run.
    destruct req; simpl; destruct (substringb key s); simpl;
      intros; simplify_eq; done.
  - destruct (h !! l) as [[items|xs|xs]|] eqn:Hl.
    + rewrite (validate_field_dict _ _ _ _ _ _ Hl). unfold field_result.
      destruct (dict_get (VStr key) items) as [v|]; [destruct (isinstance h v t)|];
        destruct req; intros; simplify_eq; done.
    + unfold validate_field, py_contains, py_getitem. run.
      destruct (existsb (key_eqb (VStr key)) xs) eqn:Hin; destruct req;
        repeat (progress (rewrite ?Hl, ?Hin; simpl)); intros; simplify_eq; done.
    + unfold validate_field, py_contains, py_getitem. run.
      destruct (existsb (key_eqb (VStr key)) xs) eqn:Hin; destruct req;
        repeat (progress (rewrite ?Hl, ?Hin; simpl)); intros; simplify_eq; done.
    + unfold validate_field, py_contains, py_getitem. run.
      destruct req; repeat (progress (rewrite ?Hl; simpl));
        intros; simplify_eq; done.
Qed.

Lemma bind_run {A B} (m : M A) (f : A → M B) h :
  (m ≫= f) h =
    match m h with
    | (Ok a, h') => f a h'
    | (Raise e, h') => (Raise e, h')
    end.
Proof. done. Qed.

Lemma validate_fields_dict h l items table req :
  h !! l = Some (ODict items) →
  validate_fields table (VRef l) req h = (fields_result h items table req, h).
Proof.
  intros Hl. unfold validate_fields.
  induction table as [|f table IH]; simpl; [done|].
  rewrite bind_run, (validate_field_dict _ _ _ _ _ _ Hl).
  destruct (field_result h items f.1 f.2 req); [apply IH | done].
Qed.

Lemma py_contains_dict h l items key :
  h !! l = Some (ODict items) →
  py_contains key (VRef l) h =
    (Ok (bool_decide (is_Some (dict_get (VStr key) items))), h).
Proof. intros Hl. unfold py_contains. run. by rewrite Hl. Qed.

Lemma py_getitem_dict h l items key v :
  h !! l = Some (ODict items) → dict_get (VStr key) items = Some v →
  py_getitem (VRef l) key h = (Ok v, h).
Proof. intros Hl Hget. unfold py_getitem. run. rewrite Hl. simpl. by rewrite Hget. Qed.

Lemma py_get_dict h l items key dflt :
  h !! l = Some (ODict items) →
  py_get (VRef l) key dflt h =
    (Ok (from_option id dflt (dict_get (VStr key) items)), h).
Proof. intros Hl. unfold py_get. run. by rewrite Hl. Qed.

Lemma py_iter_list h l xs :
  h !! l = Some (OList xs) → py_iter (VRef l) h = (Ok xs, h).
Proof. intros Hl. unfold py_iter. run. by rewrite Hl. Qed.

Lemma py_len_list h l xs :
  h !! l = Some (OList xs) → py_len (VRef l) h = (Ok (length xs), h).
Proof. intros Hl. unfold py_len. run. by rewrite Hl. Qed.

(** The per-entry checks on a dictionary. *)
Lemma validate_check_info_dict h l items :
  h !! l = Some (ODict items) →
  validate_check_info (VRef l) h = (entry_result h items, h).
Proof.
  intros Hl. unfold validate_check_info, entry_result.
  rewrite bind_run, (validate_fields_dict _ _ _ _ _ Hl).
  destruct (fields_result h items required_percheck true); [|done].
  rewrite bind_run, (validate_fields_dict _ _ _ _ _ Hl).
  destruct (fields_result h items optional_percheck false) eqn:Hopt; [|done].
  rewrite bind_run, (py_contains_dict _ _ _ _ Hl). unfold level_result.
  destruct (dict_get (VStr "check_level") items) as [v|] eqn:Hget.
  - rewrite bool_decide_true by eauto. rewrite !bind_run.
    rewrite (py_getitem_dict _ _ _ _ _ Hl Hget).
    unfold mret, M_ret, raise.
    by destruct (py_in_strings v allowed_levels).
  - rewrite bool_decide_false by (by intros [? ?]). done.
Qed.

Lemma py_in_strings_text v allowed :
  py_in_strings v allowed = true → ∃ s, v = VStr s ∧ s ∈ allowed.
Proof.
  unfold py_in_strings. intros (s & Hs & Hv)%existsb_exists.
  apply bool_decide_eq_true in Hv. exists s. by rewrite <- list_elem_of_In in Hs.
Qed.

(** The per-entry checks pass exactly on the valid entries. *)
Lemma entry_result_ok h l items :
  h !! l = Some (ODict items) →
  entry_result h items = Ok tt ↔ valid_entry h (VRef l) = true.
Proof.
  intros Hl. unfold valid_entry, view_entry, entry_result, level_result, level_ok.
  rewrite Hl. cbn [fields_result required_percheck optional_percheck fst snd].
  unfold field_result.
  destruct (dict_get (VStr "check_id") items) as [[]|]; simpl;
    try (split; discriminate);
  destruct (dict_get (VStr "parameters") items) as [[| | | | |lp]|]; simpl;
    try (split; discriminate);
  destruct (h !! lp) as [[]|]; simpl; try (split; discriminate);
  destruct (dict_get (VStr "check_name") items) as [[]|]; simpl;
    try (split; discriminate);
  destruct (dict_get (VStr "check_level") items) as [v|]; try done;
  cbn [ed_level];
  (destruct (py_in_strings v allowed_levels) eqn:Hin;
   [apply py_in_strings_text in Hin as (s' & -> & _); done
   |destruct v; simpl; split; discriminate]).
Qed.

Lemma validate_check_info_ok h e :
  (validate_check_info e h).1 = Ok tt ↔ valid_entry h e = true.
Proof.
  split.
  - intros Hok.
    assert (∃ l items, e = VRef l ∧ h !! l = Some (ODict items)) as (l & items & -> & Hl).
    { unfold validate_check_info, validate_fields in Hok. simpl in Hok.
      rewrite !bind_run in Hok.
      destruct (validate_field "check_id" Tstr e true h) as [[[]|x] h'] eqn:Hf;
        [|done].
      apply validate_field_required_ok in Hf as (l & items & v & ? & ? & _).
      eauto. }
    rewrite (validate_check_info_dict _ _ _ Hl) in Hok.
    by apply (entry_result_ok _ _ _ Hl).
  - intros Hv. unfold valid_entry, view_entry in Hv.
    destruct e as [| | | | |l]; try done.
    destruct (h !! l) as [[items| |]|] eqn:Hl; try done.
    rewrite (validate_check_info_dict _ _ _ Hl). simpl.
    apply (entry_result_ok _ _ _ Hl). unfold valid_entry, view_entry.
    by rewrite Hl.
Qed.

Lemma fields_result_raises h items table req x :
  fields_result h items table req = Raise x → field_error x = true.
Proof.
  induction table as [|f table IH]; simpl; [done|].
  unfold field_result.
  destruct (dict_get (VStr f.1) items) as [v|];
    [destruct (isinstance h v f.2)|destruct req]; intros; simplify_eq; auto.
Qed.

Lemma entry_result_raises h items x :
  entry_result h items = Raise x →
  field_error x = true ∨ x = ValueError CheckLevelNotAllowed.
Proof.
  unfold entry_result, level_result.
  destruct (fields_result h items required_percheck true) eqn:H1;
    [|intros; simplify_eq; left; by eapply fields_result_raises].
  destruct (fields_result h items optional_percheck false) eqn:H2;
    [|intros; simplify_eq; left; by eapply fields_result_raises].
  destruct (dict_get (VStr "check_level") items) as [v|]; [|done].
  destruct (py_in_strings v allowed_levels); intros; simplify_eq. by right.
Qed.

Lemma validate_check_info_raises h h' e x :
  validate_check_info e h = (Raise x, h') →
  field_error x = true ∨ x = ValueError CheckLevelNotAllowed.
Proof.
  destruct (validate_field "check_id" Tstr e true h) as [[[]|y] h1] eqn:Hf.
  - apply validate_field_required_ok in Hf as (l & items & v & -> & Hl & _).
    rewrite (validate_check_info_dict _ _ _ Hl). intros; simplify_eq.
    by eapply entry_result_raises.
  - unfold validate_check_info, validate_fields.
    cbn [for_each required_percheck fst snd]. rewrite !bind_run, Hf.
    intros; simplify_eq. left. by eapply validate_field_raises.
Qed.

Lemma for_each_validate_ok h es :
  (for_each es validate_check_info h).1 = Ok tt ↔ forallb (valid_entry h) es = true.
Proof.
  induction es as [|e es IH]; simpl; [done|].
  rewrite bind_run, (reads_eq (validate_check_info e) h) by auto with frame.
  rewrite andb_true_iff, <- IH, <- validate_check_info_ok.
  destruct (validate_check_info e h).1 as [[]|x]; simpl; [tauto|].
  split; [done | by intros [? _]].
Qed.

Lemma for_each_validate_raises h h' es x :
  for_each es validate_check_info h = (Raise x, h') →
  field_error x = true ∨ x = ValueError CheckLevelNotAllowed.
Proof.
  revert h. induction es as [|e es IH]; intros h; simpl; [done|].
  rewrite bind_run.
  destruct (validate_check_info e h) as [[[]|y] h1] eqn:He.
  - apply IH.
  - intros; simplify_eq. by eapply validate_check_info_raises.
Qed.

(** Validation of a configuration whose two top-level fields are there. *)
Lemma validate_config_view h c suite_name check_infos :
  view_config h c = Some (suite_name, check_infos) →
  validate_config c h =
    (match (for_each check_infos validate_check_info h).1 with
     | Ok _ => if bool_decide (length check_infos = 0)
               then Raise (ValueError ChecksEmpty) else Ok tt
     | Raise x => Raise x
     end, h).
Proof.
  unfold view_config. intros Hv.
  destruct c as [| | | | |l]; try done.
  destruct (h !! l) as [[items| |]|] eqn:Hl; try done.
  destruct (dict_get (VStr "checks") items) as [[| | | | |lc]|] eqn:Hchecks; try done.
  destruct (dict_get (VStr "suite_name") items) as [[| | |s| |]|] eqn:Hname; try done.
  destruct (h !! lc) as [[|es|]|] eqn:Hlc; try done. simplify_eq.
  unfold validate_config.
  rewrite bind_run, (validate_fields_dict _ _ _ _ _ Hl).
  assert (fields_result h items required_global true = Ok tt) as ->.
  { cbn [fields_result required_global fst snd]. unfold field_result.
    rewrite Hchecks, Hname. simpl. by rewrite Hlc. }
  rewrite bind_run, (py_getitem_dict _ _ _ _ _ Hl Hchecks).
  rewrite bind_run, (py_iter_list _ _ _ Hlc).
  rewrite bind_run, (reads_eq (for_each _ _) h) by (frame).
  destruct (for_each check_infos validate_check_info h).1; [|done].
  rewrite bind_run, (py_getitem_dict _ _ _ _ _ Hl Hchecks).
  rewrite bind_run, (py_len_list _ _ _ Hlc).
  by case_bool_decide.
Qed.

(** Without them, a field error. *)
Lemma validate_config_no_view h c :
  view_config h c = None →
  ∃ x, validate_config c h = (Raise x, h) ∧ field_error x = true.
Proof.
  intros Hv.
  destruct (validate_field "checks" Tlist c true h) as [[[]|x] h1] eqn:Hf.
  - apply validate_field_required_ok in Hf as (l & items & v & -> & Hl & Hchecks & Hty).
    unfold validate_config. rewrite bind_run, (validate_fields_dict _ _ _ _ _ Hl).
    assert (∃ x, fields_result h items required_global true = Raise x) as [x Hx].
    { cbn [fields_result required_global fst snd]. unfold field_result.
      rewrite Hchecks, Hty. unfold view_config in Hv. rewrite Hl, Hchecks in Hv.
      destruct v as [| | | | |lc]; try done. simpl in Hty.
      destruct (dict_get (VStr "suite_name") items) as [w|]; [|eauto].
      destruct (isinstance h w Tstr) eqn:Hw; [|eauto].
      destruct w; try done. destruct (h !! lc) as [[]|]; done. }
    rewrite Hx. exists x. split; [done|]. by eapply fields_result_raises.
  - pose proof (reads_validate_field "checks" Tlist c true h) as Hh.
    rewrite Hf in Hh. simpl in Hh. subst.
    unfold validate_config, validate_fields.
    cbn [for_each required_global fst snd]. rewrite !bind_run, Hf.
    exists x. split; [done|]. by eapply validate_field_raises.
Qed.

(** [validate_config] returns exactly on the valid configurations. *)
Lemma validate_config_ok h c :
  (validate_config c h).1 = Ok tt ↔ valid_config h c = true.
Proof.
  unfold valid_config.
  destruct (view_config h c) as [[name es]|] eqn:Hv.
  - rewrite (validate_config_view _ _ _ _ Hv). simpl.
    rewrite andb_true_iff, <- for_each_validate_ok, bool_decide_eq_true.
    destruct (for_each es validate_check_info h).1 as [[]|x].
    + case_bool_decide as Hlen.
      * split; [done|]. intros [Hne _]. destruct es; done.
      * split; [|done]. intros _. split; [|done]. by intros ->.
    + split; [done | by intros [_ ?]].
  - destruct (validate_config_no_view _ _ Hv) as (x & -> & _). done.
Qed.

End ValidatorFacts.

(** ** The assembler on the store *)

Module AssemblerFacts.
Import Py YamlParser View AView Frame ValidatorFacts.

Section with_ds.
Context {DS : Type} `{Countable DS}.
Implicit Types (env : environment DS) (c : check_cls DS).

Lemma reads_resolve_check env v : reads (resolve_check env v).
Proof.
  unfold resolve_check, py_split, import_module, getattr. frame.
Qed.

Lemma resolve_check_text env s h :
  resolve_check env (VStr s) h = (resolve env s, h).
Proof.
  unfold resolve, resolve_check, py_split, import_module, getattr.
  unfold mbind, M_bind, mret, M_ret, raise.
  destruct (starts_with _ _); [done|].
  destruct (bool_decide _); [done|].
  destruct (env_modules env _) as [module|]; [|done].
  by destruct (module _).
Qed.

(** Updating the object allocated last. *)
Lemma py_update_items_last h d other :
  py_update_items (VRef (length h)) other (h ++ [ODict d]) =
    (Ok tt, h ++ [ODict (dict_update d other)]).
Proof.
  unfold py_update_items. rewrite bind_run. unfold read. cbv beta.
  rewrite list_lookup_middle by done. unfold write. cbv beta.
  rewrite list_lookup_middle by done.
  f_equal. rewrite insert_app_r_alt by done. by rewrite Nat.sub_diag.
Qed.

(** Whatever happens, merging leaves the old objects and adds one. *)
Lemma merge_params_heap c e h :
  ∃ d, (merge_params c e h).2 = h ++ [ODict d].
Proof.
  unfold merge_params, new_dict. rewrite !bind_run. unfold alloc at 1.
  unfold mret at 1, M_ret at 1. rewrite bind_run, py_update_items_last.
  rewrite bind_run.
  rewrite (reads_eq (py_getitem e "parameters")) by auto with frame.
  destruct (py_getitem e "parameters" _).1 as [v|x]; [|by eexists].
  rewrite bind_run. unfold py_update.
  destruct v as [| | | | |l]; try by eexists.
  rewrite bind_run. unfold read.
  destruct (_ !! l) as [[items| |]|]; try by eexists.
  rewrite py_update_items_last. by eexists.
Qed.

Lemma extends_merge_params c e : extends (merge_params c e).
Proof.
  intros h. destruct (merge_params_heap c e h) as [d ->]. by apply prefix_app_r.
Qed.

Lemma reads_validate_parameters c params : reads (validate_parameters c params).
Proof. unfold validate_parameters. frame. Qed.

Lemma reads_format_check v : reads (format_check v).
Proof. unfold format_check. frame. Qed.

Lemma extends_build_instance env e : extends (build_instance env e).
Proof.
  unfold build_instance, construct.
  repeat first
    [ apply extends_merge_params
    | apply reads_extends;
      first [ apply reads_resolve_check | apply reads_validate_parameters
            | apply reads_format_check | solve [frame] ]
    | apply extends_bind; [|intros ?] ].
Qed.

Lemma extends_check_step env st e : extends (check_step env st e).
Proof.
  unfold check_step. apply extends_bind; [apply extends_build_instance|].
  intros [[? ?] ?]. apply reads_extends. frame.
Qed.

Lemma extends_for_fold {A S} (xs : list A) (body : S → A → M S) s :
  (∀ s x, extends (body s x)) → extends (for_fold xs body s).
Proof.
  intros Hb. revert s. induction xs as [|x xs IH]; intros s; simpl.
  - apply reads_extends. frame.
  - apply extends_bind; auto.
Qed.

Lemma reads_set_intersection (sets : list (gset DS)) : reads (set_intersection sets).
Proof. unfold set_intersection. frame. Qed.

Lemma reads_py_type name bases (d : gmap string (attr DS)) :
  reads (py_type name bases d).
Proof. unfold py_type. frame. Qed.

Lemma extends_assemble env config : extends (assemble env config).
Proof.
  unfold assemble.
  repeat first
    [ apply extends_for_fold; intros; apply extends_check_step
    | apply reads_extends;
      first [ apply reads_validate_config | apply reads_set_intersection
            | apply reads_py_type | solve [frame] ]
    | apply extends_bind; [|intros ?] ].
Qed.

(** An induction principle for literals that reaches inside the lists. *)
Lemma tree_ind_nested (P : tree → Prop) :
  P YNone → (∀ b, P (YBool b)) → (∀ z, P (YInt z)) → (∀ s, P (YStr s)) →
  (∀ n, P (YOther n)) →
  (∀ ts, Forall P ts → P (YList ts)) →
  (∀ ts, Forall P ts → P (YTuple ts)) →
  (∀ items, Forall (λ kv, P kv.1 ∧ P kv.2) items → P (YDict items)) →
  ∀ t, P t.
Proof.
  intros HNone HBool HInt HStr HOther HList HTuple HDict.
  fix IH 1. intros [| |z|s|n|ts|ts|items].
  - exact HNone.
  - apply HBool.
  - apply HInt.
  - apply HStr.
  - apply HOther.
  - apply HList. induction ts as [|t ts IHts]; constructor; [apply IH | exact IHts].
  - apply HTuple. induction ts as [|t ts IHts]; constructor; [apply IH | exact IHts].
  - apply HDict. induction items as [|[k v] items IHitems]; constructor;
      [split; apply IH | exact IHitems].
Qed.

Lemma extends_build t : extends (build t).
Proof.
  induction t as [| | | | |ts IH|ts IH|items IH] using tree_ind_nested;
    try solve [apply reads_extends; simpl; frame].
  - simpl. apply extends_bind.
    + induction IH as [|t ts Ht _ IHts]; [apply reads_extends; frame|].
      apply extends_bind; [done|]. intros v.
      apply extends_bind; [done|]. intros vs. apply reads_extends. frame.
    + intros vs. apply extends_bind; [apply extends_alloc|].
      intros l. apply reads_extends. frame.
  - simpl. apply extends_bind.
    + induction IH as [|t ts Ht _ IHts]; [apply reads_extends; frame|].
      apply extends_bind; [done|]. intros v.
      apply extends_bind; [done|]. intros vs. apply reads_extends. frame.
    + intros vs. apply extends_bind; [apply extends_alloc|].
      intros l. apply reads_extends. frame.
  - simpl. apply extends_bind.
    + induction IH as [|[k v] items [Hk Hv] _ IHitems]; [apply reads_extends; frame|].
      apply extends_bind; [done|]. intros k'.
      apply extends_bind; [done|]. intros v'.
      apply extends_bind; [done|]. intros r. apply reads_extends. frame.
    + intros kvs. apply extends_bind; [apply extends_alloc|].
      intros l. apply reads_extends. frame.
Qed.

Lemma extends_load_config env config : extends (load_config env config).
Proof.
  unfold load_config. destruct config; try solve [apply reads_extends; frame].
  destruct (env_yaml env s); try solve [apply reads_extends; frame].
  apply extends_bind; [apply extends_build|]. intros v.
  apply reads_extends. frame.
Qed.

Lemma extends_get_checker_class env config :
  extends (get_checker_class env config).
Proof.
  unfold get_checker_class. apply extends_bind; [apply extends_load_config|].
  intros c. apply extends_assemble.
Qed.

(** *** Objects of the store stay where they are *)

Lemma view_entry_mono (h h' : heap) e d :
  h `prefix_of` h' → view_entry h e = Some d → view_entry h' e = Some d.
Proof.
  intros Hp. unfold view_entry. destruct e as [| | | | |l]; try done.
  destruct (h !! l) as [[items| |]|] eqn:Hl; try done.
  rewrite (prefix_lookup_Some _ _ _ _ Hl Hp).
  destruct (dict_get (VStr "check_id") items) as [[]|]; try done.
  destruct (dict_get (VStr "parameters") items) as [[| | | | |lp]|]; try done.
  destruct (dict_get (VStr "check_name") items) as [[]|]; try done.
  destruct (h !! lp) as [[ps| |]|] eqn:Hlp; try done.
  by rewrite (prefix_lookup_Some _ _ _ _ Hlp Hp).
Qed.

Lemma view_config_mono (h h' : heap) cfg v :
  h `prefix_of` h' → view_config h cfg = Some v → view_config h' cfg = Some v.
Proof.
  intros Hp. unfold view_config. destruct cfg as [| | | | |l]; try done.
  destruct (h !! l) as [[items| |]|] eqn:Hl; try done.
  rewrite (prefix_lookup_Some _ _ _ _ Hl Hp).
  destruct (dict_get (VStr "checks") items) as [[| | | | |lc]|]; try done.
  destruct (dict_get (VStr "suite_name") items) as [[]|]; try done.
  destruct (h !! lc) as [[|es|]|] eqn:Hlc; try done.
  by rewrite (prefix_lookup_Some _ _ _ _ Hlc Hp).
Qed.

Lemma isinstance_mono (h h' : heap) v t :
  h `prefix_of` h' → isinstance h v t = true → isinstance h' v t = true.
Proof.
  intros Hp. destruct t, v; simpl; try done;
    destruct (h !! l) as [[]|] eqn:Hl; try done;
    by rewrite (prefix_lookup_Some _ _ _ _ Hl Hp).
Qed.

Lemma fields_result_mono (h h' : heap) items table :
  h `prefix_of` h' →
  fields_result h items table true = Ok tt →
  fields_result h' items table true = Ok tt.
Proof.
  intros Hp. induction table as [|f table IH]; simpl; [done|].
  unfold field_result. destruct (dict_get (VStr f.1) items) as [v|]; [|done].
  destruct (isinstance h v f.2) eqn:Hty; [|done].
  by rewrite (isinstance_mono _ _ _ _ Hp Hty).
Qed.

Lemma params_result_mono c (h h' : heap) items :
  h `prefix_of` h' →
  params_result c h items = Ok tt → params_result c h' items = Ok tt.
Proof.
  intros Hp. unfold params_result.
  destruct (cls_required_parameters c) as [required|]; [|done].
  destruct (fields_result h items required true) as [[]|[]] eqn:Hf; try done.
  by rewrite (fields_result_mono _ _ _ _ Hp Hf).
Qed.

(** *** One iteration on a validated entry *)

Lemma merge_params_dict c (h : heap) l items lp ps :
  h !! l = Some (ODict items) →
  dict_get (VStr "parameters") items = Some (VRef lp) →
  h !! lp = Some (ODict ps) →
  merge_params c (VRef l) h =
    (Ok (VRef (length h)), h ++ [ODict (merged_items c ps)]).
Proof.
  intros Hl Hps Hlp. unfold merge_params, new_dict.
  rewrite !bind_run. unfold alloc at 1. unfold mret at 1, M_ret at 1.
  rewrite bind_run, py_update_items_last.
  assert ((h ++ [ODict (dict_update [] (cls_defaults c))]) !! l
          = Some (ODict items)) as Hl' by (by apply lookup_app_l_Some).
  rewrite bind_run, (py_getitem_dict _ _ _ _ _ Hl' Hps).
  rewrite bind_run. unfold py_update. rewrite bind_run. unfold read.
  rewrite (lookup_app_l_Some _ _ _ _ Hlp).
  by rewrite py_update_items_last.
Qed.

Lemma validate_parameters_dict c (h : heap) l merged :
  h !! l = Some (ODict merged) →
  validate_parameters c (VRef l) h = (params_result c h merged, h).
Proof.
  intros Hl. unfold validate_parameters, params_result.
  destruct (cls_required_parameters c) as [required|]; [|done].
  unfold rewrap.
  change (for_each required _) with (validate_fields required (VRef l) true).
  rewrite (validate_fields_dict _ _ _ _ _ Hl).
  by destruct (fields_result h merged required true) as [[]|[]].
Qed.

Lemma build_instance_view env (h : heap) e d :
  view_entry h e = Some d →
  build_instance env e h =
    match resolve env (ed_name d) with
    | Raise x => (Raise x, h)
    | Ok c =>
        let merged := merged_items c (ed_params d) in
        let h' := h ++ [ODict merged] in
        match params_result c h' merged with
        | Raise x => (Raise x, h')
        | Ok _ =>
            (Ok ("check_" +:+ ed_id d, c,
                 {| inst_cls := c; inst_kwargs := VRef (length h);
                    inst_level := from_option id VNone (ed_level d) |}), h')
        end
    end.
Proof.
  unfold view_entry. intros Hv.
  destruct e as [| | | | |l]; try done.
  destruct (h !! l) as [[items| |]|] eqn:Hl; try done.
  destruct (dict_get (VStr "check_id") items) as [[| | |cid| |]|] eqn:Hid; try done.
  destruct (dict_get (VStr "parameters") items) as [[| | | | |lp]|] eqn:Hps; try done.
  destruct (dict_get (VStr "check_name") items) as [[| | |cname| |]|] eqn:Hname; try done.
  destruct (h !! lp) as [[ps| |]|] eqn:Hlp; try done. simplify_eq. simpl.
  unfold build_instance.
  rewrite bind_run, (py_getitem_dict _ _ _ _ _ Hl Hid).
  rewrite bind_run. unfold format_check at 1, mret at 1, M_ret at 1.
  rewrite bind_run, (py_getitem_dict _ _ _ _ _ Hl Hname).
  rewrite bind_run, resolve_check_text.
  destruct (resolve env cname) as [c|x]; [|done].
  rewrite bind_run, (merge_params_dict _ _ _ _ _ _ Hl Hps Hlp).
  rewrite bind_run, (validate_parameters_dict _ _ _ (merged_items c ps))
    by (by apply list_lookup_middle).
  destruct (params_result c _ _) as [[]|x]; [|done].
  rewrite bind_run, (py_get_dict _ _ items) by (by apply lookup_app_l_Some).
  done.
Qed.

(** *** The loop as the run of its iterations *)

Lemma extends_build_all env es : extends (build_all env es).
Proof.
  induction es as [|e es IH]; simpl; [apply reads_extends; frame|].
  apply extends_bind; [apply extends_build_instance|]. intros t.
  apply extends_bind; [done|]. intros ts. apply reads_extends. frame.
Qed.

Lemma for_fold_build_all env es st (h : heap) :
  for_fold es (check_step env) st h =
    match build_all env es h with
    | (Ok ts, h') => (Ok (foldl add_check st ts), h')
    | (Raise x, h') => (Raise x, h')
    end.
Proof.
  revert st h. induction es as [|e es IH]; intros st h; simpl; [done|].
  rewrite !bind_run. unfold check_step at 1. rewrite bind_run.
  destruct (build_instance env e h) as [[[[name c] inst]|x] h1]; [|done].
  cbv beta iota. unfold mret at 1, M_ret at 1. rewrite IH, bind_run.
  by destruct (build_all env es h1) as [[ts|x] h2].
Qed.

Lemma build_all_length env es (h h' : heap) ts :
  build_all env es h = (Ok ts, h') → length ts = length es.
Proof.
  revert h h' ts. induction es as [|e es IH]; intros h h' ts; simpl.
  - intros [= <- _]. done.
  - rewrite !bind_run.
    destruct (build_instance env e h) as [[t|x] h1]; cbv beta iota; [|done].
    rewrite bind_run.
    destruct (build_all env es h1) as [[ts'|x] h2] eqn:Hrest; [|done].
    intros [= <- _]. simpl. f_equal. eauto.
Qed.

Lemma foldl_add_check_sets st (ts : list (string * check_cls DS * instance DS)) :
  (foldl add_check st ts).2 = st.2 ++ ds_sets ts.
Proof.
  revert st. induction ts as [|t ts IH]; intros st; simpl.
  - by rewrite app_nil_r.
  - rewrite IH. simpl. by rewrite <- app_assoc.
Qed.

Lemma set_intersection_ok (sets : list (gset DS)) (h : heap) :
  sets ≠ [] → set_intersection sets h = (Ok (intersection sets), h).
Proof. by destruct sets. Qed.

(** *** The whole assembly on a valid configuration *)

Lemma assemble_valid env (h : heap) cfg suite_name es :
  view_config h cfg = Some (suite_name, es) →
  valid_config h cfg = true →
  assemble env cfg h =
    match build_all env es h with
    | (Ok ts, h') => (Ok (generated suite_name ts), h')
    | (Raise x, h') => (Raise x, h')
    end.
Proof.
  intros Hv Hok. unfold assemble.
  rewrite bind_run, (reads_eq (validate_config cfg)) by apply reads_validate_config.
  apply validate_config_ok in Hok as Hrun. rewrite Hrun.
  unfold valid_config in Hok. rewrite Hv in Hok.
  apply andb_true_iff in Hok as [Hne%bool_decide_eq_true _].
  pose proof Hv as Hv'. unfold view_config in Hv'.
  destruct cfg as [| | | | |l]; try done.
  destruct (h !! l) as [[items| |]|] eqn:Hl; try done.
  destruct (dict_get (VStr "checks") items) as [[| | | | |lc]|] eqn:Hchecks; try done.
  destruct (dict_get (VStr "suite_name") items) as [[| | |s| |]|] eqn:Hname; try done.
  destruct (h !! lc) as [[|es'|]|] eqn:Hlc; try done. simplify_eq.
  rewrite bind_run, (py_getitem_dict _ _ _ _ _ Hl Hchecks).
  rewrite bind_run, (py_iter_list _ _ _ Hlc).
  rewrite bind_run, for_fold_build_all.
  pose proof (extends_build_all env es h) as Hext.
  destruct (build_all env es h) as [[ts|x] h'] eqn:Hall; [|done].
  simpl in Hext. cbv beta iota.
  rewrite bind_run, foldl_add_check_sets.
  change ((∅, []).2 ++ ds_sets ts) with (ds_sets ts).
  apply build_all_length in Hall.
  rewrite set_intersection_ok
    by (intros Hnil; apply (f_equal length) in Hnil; unfold ds_sets in Hnil;
        rewrite length_fmap, Hall in Hnil; destruct es; done).
  rewrite bind_run, (py_getitem_dict _ _ _ _ _ (prefix_lookup_Some _ _ _ _ Hl Hext) Hname).
  done.
Qed.

Lemma assemble_invalid env (h : heap) cfg :
  valid_config h cfg = false →
  ∃ x, assemble env cfg h = (Raise x, h) ∧ (validate_config cfg h).1 = Raise x.
Proof.
  intros Hbad. unfold assemble.
  rewrite bind_run, (reads_eq (validate_config cfg)) by apply reads_validate_config.
  destruct (validate_config cfg h).1 as [[]|x] eqn:Hrun; [|eauto].
  apply validate_config_ok in Hrun. congruence.
Qed.

End with_ds.
End AssemblerFacts.

(** ** Dictionaries: lookup after assignment and after [update] *)

Module DictFacts.
Import Py View.

Lemma key_eqb_refl k : key_eqb k k = true.
Proof. unfold key_eqb. by apply bool_decide_eq_true. Qed.

Lemma key_eqb_sym a b : key_eqb a b = key_eqb b a.
Proof. unfold key_eqb. apply bool_decide_ext. split; congruence. Qed.

Lemma key_eqb_trans a b c :
  key_eqb a b = true → key_eqb b c = key_eqb a c.
Proof.
  unfold key_eqb. intros Hab%bool_decide_eq_true.
  apply bool_decide_ext. rewrite Hab. done.
Qed.







End DictFacts.

(** ** What the generated class holds *)

Module ClassFacts.
Import Py YamlParser View AView Frame ValidatorFacts AssemblerFacts.

#[local] Set Warnings "-clear-no-such-hyp".

Section with_ds.
Context {DS : Type} `{Countable DS}.
Implicit Types (env : environment DS).
Implicit Types (ts : list (string * check_cls DS * instance DS)).

Lemma build_all_built env (h0 : heap) es :
  Forall (λ e, is_Some (view_entry h0 e)) es →
  ∀ (h h' : heap) ts,
    h0 `prefix_of` h → build_all env es h = (Ok ts, h') →
    Forall2 (built_for env h0 h') es ts.
Proof.
  induction 1 as [|e es [d Hd] _ IH]; intros h h' ts Hp; simpl.
  - intros [= <- _]. constructor.
  - rewrite bind_run.
    rewrite (build_instance_view _ _ _ _ (view_entry_mono _ _ _ _ Hp Hd)).
    destruct (resolve env (ed_name d)) as [c|x] eqn:Hres; [|done].
    cbv zeta. destruct (params_result c _ _) as [[]|x]; [|done].
    rewrite bind_run.
    destruct (build_all env es _) as [[ts'|x] h2] eqn:Hrest; [|done].
    intros [= <- <-].
    pose proof (extends_build_all env es (h ++ [ODict (merged_items c (ed_params d))]))
      as Hext. rewrite Hrest in Hext. simpl in Hext.
    constructor.
    + exists d, (length h). simpl. repeat split; try done.
      * by apply prefix_length.
      * eapply prefix_lookup_Some; [|exact Hext]. by apply list_lookup_middle.
    + eapply IH; [|exact Hrest]. etrans; [exact Hp|]. by apply prefix_app_r.
Qed.

(** A second run, in any later store, builds the same names and classes. *)
Lemma build_all_again env (h0 : heap) es :
  Forall (λ e, is_Some (view_entry h0 e)) es →
  ∀ (h h' h2 : heap) ts,
    h0 `prefix_of` h → build_all env es h = (Ok ts, h') → h' `prefix_of` h2 →
    ∃ ts2 h2', build_all env es h2 = (Ok ts2, h2') ∧ ts2.*1 = ts.*1.
Proof.
  induction 1 as [|e es [d Hd] _ IH]; intros h h' h2 ts Hp; simpl.
  - intros [= <- _] _. by eexists [], h2.
  - rewrite bind_run.
    rewrite (build_instance_view _ _ _ _ (view_entry_mono _ _ _ _ Hp Hd)).
    destruct (resolve env (ed_name d)) as [c|x] eqn:Hres; [|done].
    cbv zeta. set (m := merged_items c (ed_params d)).
    destruct (params_result c (h ++ [ODict m]) m) as [[]|x] eqn:Hpar; [|done].
    rewrite bind_run.
    destruct (build_all env es (h ++ [ODict m])) as [[ts'|x] h1] eqn:Hrest; [|done].
    intros [= <- <-] Hp2.
    pose proof (extends_build_all env es (h ++ [ODict m])) as Hext.
    rewrite Hrest in Hext. simpl in Hext.
    assert (h0 `prefix_of` h2) as Hp02.
    { etrans; [exact Hp|]. etrans; [by apply prefix_app_r|]. by etrans. }
    rewrite bind_run.
    rewrite (build_instance_view _ _ _ _ (view_entry_mono _ _ _ _ Hp02 Hd)).
    rewrite Hres. cbv zeta. fold m.
    rewrite (params_result_mono c (h ++ [ODict m]) (h2 ++ [ODict m]) m)
      by (done || (etrans; [exact Hext|]; etrans; [exact Hp2|]; by apply prefix_app_r)).
    destruct (IH (h ++ [ODict m]) h1 (h2 ++ [ODict m]) ts') as (ts2 & h2' & Hrun & Heq).
    + etrans; [exact Hp|]. by apply prefix_app_r.
    + done.
    + etrans; [exact Hp2|]. by apply prefix_app_r.
    + rewrite bind_run, Hrun. eexists _, _. split; [done|].
      rewrite !fmap_cons. by f_equal.
Qed.

(** *** The dictionary of the class *)

Lemma foldl_add_check_notin st ts name :
  name ∉ ts.*1.*1 → (foldl add_check st ts).1 !! name = st.1 !! name.
Proof.
  revert st. induction ts as [|t ts IH]; intros st; simpl; [done|].
  rewrite not_elem_of_cons. intros [Hne Hnotin].
  rewrite IH by done. simpl. by rewrite lookup_insert_ne.
Qed.

(** The last iteration that binds a name is the one the class keeps. *)
Lemma foldl_add_check_last st ts k name c inst :
  ts !! k = Some (name, c, inst) →
  name ∉ (drop (S k) ts).*1.*1 →
  (foldl add_check st ts).1 !! name =
    Some (Method {| fn_name := name; fn_default_c := inst |}).
Proof.
  revert st k. induction ts as [|t ts IH]; intros st k; [done|].
  destruct k as [|k]; simpl.
  - intros [= ->] Hnotin. rewrite drop_0 in Hnotin.
    rewrite foldl_add_check_notin by done. simpl. by rewrite lookup_insert_eq.
  - intros Hk Hnotin. by eapply IH.
Qed.

Lemma dom_foldl_add_check st ts :
  dom (foldl add_check st ts).1 = dom st.1 ∪ list_to_set ts.*1.*1.
Proof.
  revert st. induction ts as [|t ts IH]; intros st; simpl.
  - set_solver.
  - rewrite IH. simpl. rewrite dom_insert_L. set_solver.
Qed.

Lemma method_names_generated suite_name ts :
  Forall (λ t, t.1.1 ≠ "supported_ds") ts →
  method_names (generated suite_name ts) = list_to_set ts.*1.*1.
Proof.
  intros Hts. unfold method_names, generated. simpl.
  rewrite dom_insert_L, dom_foldl_add_check. simpl. rewrite dom_empty_L.
  assert ("supported_ds" ∉ ts.*1.*1) as Hnotin.
  { intros (p & Hp & (t & -> & Ht)%list_elem_of_fmap)%list_elem_of_fmap.
    rewrite Forall_forall in Hts. by apply (Hts t). }
  apply set_eq. intros x. rewrite elem_of_difference, !elem_of_union.
  rewrite elem_of_singleton, elem_of_list_to_set. set_solver.
Qed.

Lemma supported_ds_generated suite_name ts :
  supported_ds (generated suite_name ts) =
    Some (elements (intersection (ds_sets ts))).
Proof. unfold supported_ds, generated. simpl. by rewrite lookup_insert_eq. Qed.

Lemma elem_of_foldl_intersection (s : gset DS) rest x :
  x ∈ foldl (∩) s rest ↔ x ∈ s ∧ ∀ s', s' ∈ rest → x ∈ s'.
Proof.
  revert s. induction rest as [|s1 rest IH]; intros s; simpl.
  - split; [intros ?; split; [done|]; intros ? []%not_elem_of_nil | tauto].
  - rewrite IH, elem_of_intersection. split.
    + intros [[? ?] Hrest]. split; [done|].
      intros s' [->|?]%elem_of_cons; auto.
    + intros [? Hrest]. repeat split; [done| |].
      * apply Hrest. by left.
      * intros s' ?. apply Hrest. by right.
Qed.

(** Membership in what a non-empty list of sets has in common. *)
Lemma elem_of_common (sets : list (gset DS)) x :
  sets ≠ [] → x ∈ intersection sets ↔ ∀ s, s ∈ sets → x ∈ s.
Proof.
  destruct sets as [|s rest]; [done|]. intros _. simpl.
  rewrite elem_of_foldl_intersection. split.
  - intros [? Hrest] s' [->|?]%elem_of_cons; auto.
  - intros Hall. split; [apply Hall; by left|].
    intros s' ?. apply Hall. by right.
Qed.

End with_ds.
End ClassFacts.

(** ** The properties of the parser *)

Module Claims.
Import Py YamlParser View AView Stated.
Import Frame ValidatorFacts AssemblerFacts DictFacts ClassFacts.

#[local] Set Warnings "-clear-no-such-hyp".

(** *** Fields and views *)

Lemma view_config_fields (h : heap) c suite_name check_infos :
  view_config h c = Some (suite_name, check_infos) ↔
  ∃ lc, field h c "checks" = Some (VRef lc) ∧
        field h c "suite_name" = Some (VStr suite_name) ∧
        h !! lc = Some (OList check_infos).
Proof.
  unfold view_config, field. split.
  - intros Hv. destruct c as [| | | | |l]; try done.
    destruct (h !! l) as [[items| |]|]; try done.
    destruct (dict_get (VStr "checks") items) as [[| | | | |lc]|]; try done.
    destruct (dict_get (VStr "suite_name") items) as [[| | |s| |]|]; try done.
    destruct (h !! lc) as [[| xs|]|] eqn:Hlc; try done. simplify_eq. eauto.
  - intros (lc & Hc & Hs & Hlc). destruct c as [| | | | |l]; try done.
    destruct (h !! l) as [[items| |]|]; try done.
    by rewrite Hc, Hs, Hlc.
Qed.

Lemma field_mapping (h : heap) c key v :
  field h c key = Some v →
  ∃ l items, c = VRef l ∧ h !! l = Some (ODict items) ∧
    dict_get (VStr key) items = Some v.
Proof.
  unfold field. intros Hf. destruct c as [| | | | |l]; try done.
  destruct (h !! l) as [[items| |]|] eqn:Hl; try done. eauto.
Qed.

Lemma view_entry_field (h : heap) e d :
  view_entry h e = Some d → ed_level d = field h e "check_level".
Proof.
  unfold view_entry, field. intros Hv. destruct e as [| | | | |l]; try done.
  destruct (h !! l) as [[items| |]|]; try done.
  destruct (dict_get (VStr "check_id") items) as [[| | |cid| |]|]; try done.
  destruct (dict_get (VStr "parameters") items) as [[| | | | |lp]|]; try done.
  destruct (dict_get (VStr "check_name") items) as [[| | |cname| |]|]; try done.
  destruct (h !! lp) as [[ps| |]|]; try done. by simplify_eq.
Qed.

(** What validation raises. *)
Lemma validate_config_raises (h h' : heap) c x :
  validate_config c h = (Raise x, h') →
  field_error x = true ∨ x = ValueError CheckLevelNotAllowed ∨
  x = ValueError ChecksEmpty.
Proof.
  intros Hr. destruct (view_config h c) as [[name es]|] eqn:Hv.
  - rewrite (validate_config_view _ _ _ _ Hv) in Hr.
    destruct (for_each es validate_check_info h) as [[[]|y] h1] eqn:He; simpl in Hr.
    + case_bool_decide; simplify_eq. auto.
    + simplify_eq. destruct (for_each_validate_raises _ _ _ _ He); auto.
  - destruct (validate_config_no_view _ _ Hv) as (y & Hy & Hf).
    rewrite Hy in Hr. simplify_eq. auto.
Qed.

(** *** Validation *)

(** C3.  Validation fails for every configuration that lacks [suite_name]
    or [checks] or whose [checks] is the empty list, leaving the store as
    it was; and it succeeds for every configuration that has a text
    [suite_name] and a list [checks] of at least one entry, provided every
    entry is itself valid: its three required fields are there with their
    types and its level, if given, is an allowed one. *)
Theorem validate_config_outcome (h : heap) (c : val) :
  (field h c "suite_name" = None ∨ field h c "checks" = None ∨ checks_empty h c →
   ∃ x, validate_config c h = (Raise x, h)) ∧
  (∀ suite_name lc check_infos,
     field h c "suite_name" = Some (VStr suite_name) →
     field h c "checks" = Some (VRef lc) →
     h !! lc = Some (OList check_infos) →
     check_infos ≠ [] →
     Forall (λ e, valid_entry h e = true) check_infos →
     validate_config c h = (Ok tt, h)).
Proof.
  split.
  - intros Hbad. destruct (view_config h c) as [[name es]|] eqn:Hv.
    + pose proof Hv as Hf. apply view_config_fields in Hf as (lc & Hc & Hs & Hlc).
      destruct Hbad as [Hn|[Hn|(lc' & Hc' & Hlc')]]; [congruence..|].
      assert (es = []) as -> by congruence.
      rewrite (validate_config_view _ _ _ _ Hv). simpl. eauto.
    + destruct (validate_config_no_view _ _ Hv) as (x & Hx & _). eauto.
  - intros name lc es Hs Hc Hlc Hne Hall.
    assert (view_config h c = Some (name, es)) as Hv
      by (apply view_config_fields; eauto).
    rewrite (reads_eq _ h (reads_validate_config c)). f_equal.
    apply validate_config_ok. unfold valid_config. rewrite Hv.
    apply andb_true_iff. split; [by apply bool_decide_eq_true|].
    apply forallb_forall. intros e He%list_elem_of_In.
    by eapply Forall_forall in Hall.
Qed.

Lemma validate_config_outcome_witness :
  (∃ x, validate_config (value_of Tests.no_checks_no_name_config)
          (store_of Tests.no_checks_no_name_config) =
        (Raise x, store_of Tests.no_checks_no_name_config)) ∧
  validate_config (value_of Tests.supported_ds_config)
    (store_of Tests.supported_ds_config) =
  (Ok tt, store_of Tests.supported_ds_config).
Proof.
  split.
  - apply (proj1 (validate_config_outcome _ _)). left. reflexivity.
  - eapply (proj2 (validate_config_outcome _ _)).
    + vm_compute. reflexivity.
    + vm_compute. reflexivity.
    + vm_compute. reflexivity.
    + discriminate.
    + repeat constructor.
Defined.

(** The last invalid configuration of [test_missing_keys] has both
    top-level fields, well typed, and one entry; it is rejected for the
    entry's missing [parameters]. *)
Lemma top_level_fields_do_not_suffice : ¬ top_level_fields_suffice.
Proof.
  intros Hs.
  assert ((validate_config (value_of Tests.missing_parameters_config)
             (store_of Tests.missing_parameters_config)).1 = Ok tt) as Hc.
  { eapply Hs.
    - vm_compute. reflexivity.
    - vm_compute. reflexivity.
    - vm_compute. reflexivity.
    - discriminate. }
  vm_compute in Hc. discriminate.
Qed.

(** The checks of the top-level fields come first: what they raise is
    what validation raises. *)
Lemma validate_config_fields (h : heap) l items x :
  h !! l = Some (ODict items) →
  fields_result h items required_global true = Raise x →
  validate_config (VRef l) h = (Raise x, h).
Proof.
  intros Hl Hx. unfold validate_config.
  by rewrite bind_run, (validate_fields_dict _ _ _ _ _ Hl), Hx.
Qed.

(** C7.  The field checks come before the test for an empty list, and the
    first violation is the one raised: a configuration whose [checks] is
    the empty list and whose [suite_name] is missing, or is not text, is
    rejected with the error of that field; the error of the empty list is
    raised exactly when both top-level fields pass and [checks] is the
    empty list. *)
Theorem field_errors_before_empty_checks (h : heap) (c : val) :
  (checks_empty h c → field h c "suite_name" = None →
   validate_config c h =
     (Raise (ValueError (RequiredKeyNotPresent "suite_name")), h)) ∧
  (∀ v, checks_empty h c → field h c "suite_name" = Some v →
     isinstance h v Tstr = false →
     validate_config c h = (Raise (TypeError (NotOfType "suite_name" Tstr)), h)) ∧
  ((∃ h', validate_config c h = (Raise (ValueError ChecksEmpty), h')) ↔
   (∃ suite_name, view_config h c = Some (suite_name, []))).
Proof.
  split; [|split].
  - intros (lc & Hc & Hlc) Hs.
    apply field_mapping in Hc as (l & items & -> & Hl & Hc).
    apply (validate_config_fields _ _ _ _ Hl).
    unfold field in Hs. rewrite Hl in Hs.
    unfold fields_result, field_result, required_global; simpl.
    by rewrite Hc, Hs; simpl; rewrite Hlc.
  - intros v (lc & Hc & Hlc) Hs Hty.
    apply field_mapping in Hc as (l & items & -> & Hl & Hc).
    apply (validate_config_fields _ _ _ _ Hl).
    unfold field in Hs. rewrite Hl in Hs.
    unfold fields_result, field_result, required_global; simpl.
    rewrite Hc, Hs; simpl; rewrite Hlc. simpl in Hty. by rewrite Hty.
  - split.
    + intros (h' & Hr). destruct (view_config h c) as [[name es]|] eqn:Hv.
      * rewrite (validate_config_view _ _ _ _ Hv) in Hr.
        destruct (for_each es validate_check_info h) as [[[]|y] h1] eqn:He;
          simpl in Hr.
        -- case_bool_decide as Hn; [|done].
           destruct es; [eauto|done].
        -- simplify_eq. by destruct (for_each_validate_raises _ _ _ _ He).
      * destruct (validate_config_no_view _ _ Hv) as (y & Hy & Hf).
        rewrite Hy in Hr. by simplify_eq.
    + intros (name & Hv). exists h.
      by rewrite (validate_config_view _ _ _ _ Hv).
Qed.

Lemma field_errors_before_empty_checks_witness :
  validate_config (value_of Tests.no_checks_no_name_config)
    (store_of Tests.no_checks_no_name_config) =
  (Raise (ValueError (RequiredKeyNotPresent "suite_name")),
   store_of Tests.no_checks_no_name_config).
Proof.
  apply (proj1 (field_errors_before_empty_checks _ _)).
  - exists 0%nat. split; reflexivity.
  - reflexivity.
Defined.

(** The checks of a table of required fields, up to a field that is
    there with a value of the wrong type: when the fields before it pass,
    that field is the one reported. *)
Lemma fields_result_first_wrong_type (h : heap) items before key t v after :
  Forall (λ f, ∃ w, dict_get (VStr f.1) items = Some w ∧
                    isinstance h w f.2 = true) before →
  dict_get (VStr key) items = Some v →
  isinstance h v t = false →
  fields_result h items (before ++ (key, t) :: after) true =
    Raise (TypeError (NotOfType key t)).
Proof.
  intros Hbefore Hv Hty.
  induction Hbefore as [|f before (w & Hw & Hwty) _ IH]; simpl.
  - unfold field_result. simpl. by rewrite Hv, Hty.
  - unfold field_result at 1. by rewrite Hw, Hwty.
Qed.

(** C4.  A field that is present with a value of the wrong type makes the
    check of that field raise the type error.  For a check entry, take a
    required field that is present with a value of the wrong type, the
    required fields before it in the order [check_id], [parameters],
    [check_name] being present with values of their types: validation of
    the entry raises the type error of that field, not a value error, and
    the store is left as it was. *)
Theorem wrong_type_is_type_error (h : heap) (e : val) key t v :
  field h e key = Some v →
  isinstance h v t = false →
  (∀ required,
     validate_field key t e required h =
       (Raise (TypeError (NotOfType key t)), h)) ∧
  (∀ before after,
     required_percheck = before ++ (key, t) :: after →
     Forall (λ f, ∃ w, field h e f.1 = Some w ∧ isinstance h w f.2 = true)
       before →
     validate_check_info e h = (Raise (TypeError (NotOfType key t)), h)).
Proof.
  intros Hf Hty. pose proof Hf as Hm.
  apply field_mapping in Hm as (l & items & -> & Hl & Hv). split.
  - intros required. rewrite (validate_field_dict _ _ _ _ _ _ Hl).
    unfold field_result. by rewrite Hv, Hty; destruct required.
  - intros before after Htable Hbefore.
    rewrite (validate_check_info_dict _ _ _ Hl). unfold entry_result.
    rewrite Htable.
    rewrite (fields_result_first_wrong_type h items before key t v after);
      [done| |done..].
    eapply Forall_impl; [exact Hbefore|]. intros f (w & Hw & Hwty).
    exists w. unfold field in Hw. by rewrite Hl in Hw.
Qed.

Lemma wrong_type_is_type_error_witness :
  validate_check_info (value_of Examples.parameters_not_mapping_entry)
    (store_of Examples.parameters_not_mapping_entry) =
  (Raise (TypeError (NotOfType "parameters" Tdict)),
   store_of Examples.parameters_not_mapping_entry).
Proof.
  apply (proj2 (wrong_type_is_type_error
                  (store_of Examples.parameters_not_mapping_entry)
                  (value_of Examples.parameters_not_mapping_entry)
                  "parameters" Tdict (VInt 0) eq_refl eq_refl)
           [("check_id", Tstr)] [("check_name", Tstr)]).
  - reflexivity.
  - repeat constructor. exists (VStr "one"). split; reflexivity.
Defined.

(** An entry without [check_id] whose [parameters] is a number: the
    missing field is met first. *)
Lemma wrong_type_not_always_type_error : ¬ wrong_type_always_type_error.
Proof.
  intros Hs.
  destruct (Hs (store_of Tests.wrong_type_missing_id_entry)
              (value_of Tests.wrong_type_missing_id_entry)
              "parameters" Tdict (VInt 0)) as [m Hm].
  - set_solver.
  - reflexivity.
  - reflexivity.
  - vm_compute in Hm. discriminate.
Qed.

(** The per-entry checks on an entry whose required fields pass. *)
Lemma entry_result_view (h : heap) l items d :
  h !! l = Some (ODict items) →
  view_entry h (VRef l) = Some d →
  entry_result h items =
    match fields_result h items optional_percheck false with
    | Ok _ => level_result items
    | Raise x => Raise x
    end.
Proof.
  intros Hl. unfold view_entry, entry_result. rewrite Hl.
  cbn [fields_result required_percheck fst snd]. unfold field_result at 1 2 3.
  destruct (dict_get (VStr "check_id") items) as [[]|]; try done.
  destruct (dict_get (VStr "parameters") items) as [[| | | | |lp]|]; try done.
  destruct (dict_get (VStr "check_name") items) as [[]|]; try done.
  destruct (h !! lp) as [[]|] eqn:Hlp; try done. intros _. simpl.
  by rewrite Hlp.
Qed.

(** C6.  For a check entry whose required fields pass, a [check_level]
    that is text but none of HIGH, MEDIUM and LOW makes validation of the
    entry raise the value error of the level, and the store is left as it
    was.  For any entry without [check_level], that error is not
    raised. *)
Theorem bad_level_is_value_error (h : heap) (e : val) :
  (∀ level,
     is_Some (view_entry h e) →
     field h e "check_level" = Some (VStr level) →
     level ∉ allowed_levels →
     validate_check_info e h = (Raise (ValueError CheckLevelNotAllowed), h)) ∧
  (field h e "check_level" = None →
   (validate_check_info e h).1 ≠ Raise (ValueError CheckLevelNotAllowed)).
Proof.
  split.
  - intros level [d Hd] Hf Hnot.
    apply field_mapping in Hf as (l & items & -> & Hl & Hlevel).
    rewrite (validate_check_info_dict _ _ _ Hl), (entry_result_view _ _ _ _ Hl Hd).
    cbn [fields_result optional_percheck fst snd].
    unfold field_result, level_result. rewrite Hlevel. cbn [isinstance].
    destruct (py_in_strings (VStr level) allowed_levels) eqn:Hin; [|done].
    apply py_in_strings_text in Hin as (s & [= ->] & Hin). done.
  - intros Hnone Hr.
    destruct (validate_check_info e h) as [r h'] eqn:Hrun. simpl in Hr. subst r.
    destruct (validate_field "check_id" Tstr e true h) as [[[]|y] h1] eqn:Hf.
    + apply validate_field_required_ok in Hf as (l & items & v & -> & Hl & _).
      rewrite (validate_check_info_dict _ _ _ Hl) in Hrun.
      unfold field in Hnone. rewrite Hl in Hnone.
      injection Hrun as Hrun _. unfold entry_result, level_result in Hrun.
      rewrite Hnone in Hrun.
      destruct (fields_result h items required_percheck true) eqn:H1;
        [|by apply fields_result_raises in H1; simplify_eq].
      destruct (fields_result h items optional_percheck false) eqn:H2;
        [done|by apply fields_result_raises in H2; simplify_eq].
    + unfold validate_check_info, validate_fields in Hrun.
      cbn [for_each required_percheck fst snd] in Hrun.
      rewrite !bind_run, Hf in Hrun. simplify_eq.
      by apply validate_field_raises in Hf.
Qed.

Lemma bad_level_is_value_error_witness :
  validate_check_info (value_of Tests.bad_level_entry)
    (store_of Tests.bad_level_entry) =
  (Raise (ValueError CheckLevelNotAllowed), store_of Tests.bad_level_entry).
Proof.
  apply (proj1 (bad_level_is_value_error _ _) "CRITICAL").
  - vm_compute. eauto.
  - reflexivity.
  - set_solver.
Defined.

(** An entry whose [check_id] is a mapping and whose level is not an
    allowed one: the type of [check_id] is met first. *)
Lemma bad_level_not_always_value_error : ¬ bad_level_always_value_error.
Proof.
  intros Hs.
  destruct (Hs (store_of Tests.bad_level_wrong_id_entry)
              (value_of Tests.bad_level_wrong_id_entry) "CRITICAL") as [m Hm].
  - reflexivity.
  - set_solver.
  - vm_compute in Hm. discriminate.
Qed.

(** *** Assembly *)

Section with_ds.
Context {DS : Type} `{Countable DS}.
Implicit Types (env : environment DS) (ty : pyclass DS).

(** A successful call: the configuration was loaded and found valid, the
    iterations built [ts], and the class is the one generated from them. *)
Lemma get_checker_class_ok env c (h h' : heap) ty :
  get_checker_class env c h = (Ok ty, h') →
  ∃ cfg h0 suite_name es ts,
    load_config env c h = (Ok cfg, h0) ∧
    view_config h0 cfg = Some (suite_name, es) ∧
    valid_config h0 cfg = true ∧
    build_all env es h0 = (Ok ts, h') ∧
    ty = generated suite_name ts.
Proof.
  unfold get_checker_class. rewrite bind_run.
  destruct (load_config env c h) as [[cfg|x] h0] eqn:Hload; [|done].
  destruct (valid_config h0 cfg) eqn:Hvalid.
  - pose proof Hvalid as Hv. unfold valid_config in Hv.
    destruct (view_config h0 cfg) as [[name es]|] eqn:Hview; [|done].
    rewrite (assemble_valid _ _ _ _ _ Hview Hvalid).
    destruct (build_all env es h0) as [[ts|x] h1] eqn:Hb; [|done].
    intros [= <- <-]. by exists cfg, h0, name, es, ts.
  - destruct (assemble_invalid env _ _ Hvalid) as (x & -> & _). done.
Qed.

(** C9.  Validation leaves the store exactly as it found it, and a call of
    [get_checker_class] only adds objects to it, whether they succeed or
    fail: every object that was there, the configuration, its entries and
    their parameters among them, is there unchanged afterwards, and the
    merged parameters are new objects. *)
Theorem input_not_mutated env (c : val) (h : heap) :
  (validate_config c h).2 = h ∧
  ∃ fresh, (get_checker_class env c h).2 = h ++ fresh.
Proof.
  split.
  - apply reads_validate_config.
  - apply (extends_get_checker_class env c h).
Qed.

(** The entries of a valid configuration can all be viewed. *)
Lemma valid_config_entries (h : heap) cfg suite_name es :
  view_config h cfg = Some (suite_name, es) →
  valid_config h cfg = true →
  es ≠ [] ∧ Forall (λ e, is_Some (view_entry h e)) es.
Proof.
  unfold valid_config. intros -> [Hne Hall]%andb_true_iff. split.
  - by apply bool_decide_eq_true in Hne.
  - apply Forall_forall. intros e He%list_elem_of_In.
    eapply forallb_forall in Hall; [|done]. unfold valid_entry in Hall.
    by destruct (view_entry h e).
Qed.

(** The classes of what the iterations built are the classes the entries
    resolve to. *)
Lemma built_classes env (h0 h' : heap) es ts :
  Forall2 (built_for env h0 h') es ts →
  mapM (resolved_class env h0) es = Some ts.*1.*2.
Proof.
  intros Hb. apply mapM_Some. induction Hb as [|e t es ts Hbuilt _ IH]; simpl.
  - constructor.
  - constructor; [|done]. destruct Hbuilt as (d & l & Hd & Hres & _).
    unfold resolved_class. by rewrite Hd, Hres.
Qed.

Lemma ds_sets_classes (ts : list (string * check_cls DS * instance DS)) :
  ds_sets ts = (λ cls, list_to_set (cls_supported_ds cls)) <$> ts.*1.*2.
Proof. unfold ds_sets. by rewrite <- !list_fmap_compose. Qed.

(** C1.  When [get_checker_class] returns a class, every check name of the
    loaded configuration resolves to an implementation, there is at least
    one, and the class's [supported_ds] is a list without repetition whose
    elements are exactly the dataset types that every one of these
    implementations supports; so it is empty as soon as one implementation
    supports none. *)
Theorem supported_ds_is_intersection env (c : val) (h h' : heap) ty :
  get_checker_class env c h = (Ok ty, h') →
  ∃ cfg h0 classes ds,
    load_config env c h = (Ok cfg, h0) ∧
    resolved_classes env h0 cfg = Some classes ∧
    classes ≠ [] ∧
    supported_ds ty = Some ds ∧
    NoDup ds ∧
    (∀ x, x ∈ ds ↔ ∀ cls, cls ∈ classes → x ∈ cls_supported_ds cls) ∧
    ((∃ cls, cls ∈ classes ∧ cls_supported_ds cls = []) → ds = []).
Proof.
  intros (cfg & h0 & name & es & ts & Hload & Hview & Hvalid & Hbuild & ->)
    %get_checker_class_ok.
  destruct (valid_config_entries _ _ _ _ Hview Hvalid) as [Hne Hall].
  pose proof (build_all_built env h0 es Hall h0 h' ts (reflexivity _) Hbuild) as Hb.
  assert (ts ≠ []) as Hts.
  { intros ->. apply Forall2_nil_inv_r in Hb. done. }
  assert (∀ x, x ∈ elements (intersection (ds_sets ts)) ↔
               ∀ cls, cls ∈ ts.*1.*2 → x ∈ cls_supported_ds cls) as Hds.
  { intros x. rewrite elem_of_elements, elem_of_common
      by (rewrite ds_sets_classes; destruct ts; done).
    rewrite ds_sets_classes. split.
    - intros Hx cls Hcls.
      specialize (Hx (list_to_set (cls_supported_ds cls))).
      rewrite elem_of_list_to_set in Hx. apply Hx.
      apply list_elem_of_fmap. eauto.
    - intros Hx s (cls & -> & Hcls)%list_elem_of_fmap.
      apply elem_of_list_to_set. auto. }
  exists cfg, h0, ts.*1.*2, (elements (intersection (ds_sets ts))).
  split_and!.
  - done.
  - unfold resolved_classes. rewrite Hview. by eapply built_classes.
  - by destruct ts.
  - apply supported_ds_generated.
  - apply NoDup_elements.
  - done.
  - intros (cls & Hcls & Hempty).
    destruct (elements (intersection (ds_sets ts))) as [|x xs] eqn:He; [done|].
    assert (x ∈ cls_supported_ds cls) as Hx.
    { apply (proj1 (Hds x)); [|done]. by left. }
    rewrite Hempty in Hx. by apply elem_of_nil in Hx.
Qed.

(** C2.  In a successful assembly, take an entry whose [check_id] no
    later entry repeats.  The generated class has the method named after
    it, the function of that method holds the instance built in that
    entry's own iteration, and calling it is calling [do_check] of that
    instance, whatever the later iterations built. *)
Theorem method_delegates_to_own_instance
    env (c : val) (h h' h0 : heap) ty cfg suite_name es ts k e d :
  get_checker_class env c h = (Ok ty, h') →
  load_config env c h = (Ok cfg, h0) →
  view_config h0 cfg = Some (suite_name, es) →
  build_all env es h0 = (Ok ts, h') →
  es !! k = Some e →
  view_entry h0 e = Some d →
  (∀ j e' d', (k < j)%nat → es !! j = Some e' → view_entry h0 e' = Some d' →
     ed_id d' ≠ ed_id d) →
  ∃ cls inst f,
    ts !! k = Some ("check_" +:+ ed_id d, cls, inst) ∧
    method ty ("check_" +:+ ed_id d) = Some f ∧
    fn_default_c f = inst ∧
    ∀ self ds hh, call_inner f self ds hh = do_check inst ds hh.
Proof.
  intros (cfg' & h0' & name & es' & ts' & Hload' & Hview' & Hvalid & Hbuild' & ->)
    %get_checker_class_ok Hload Hview Hbuild Hk Hd Hlater.
  rewrite Hload in Hload'. injection Hload' as <- <-.
  rewrite Hview in Hview'. injection Hview' as <- <-.
  rewrite Hbuild in Hbuild'. injection Hbuild' as <-.
  destruct (valid_config_entries _ _ _ _ Hview Hvalid) as [_ Hall].
  pose proof (build_all_built env h0 es Hall h0 h' ts (reflexivity _) Hbuild) as Hb.
  destruct (Forall2_lookup_l _ _ _ _ _ Hb Hk) as ([[name' cls] inst] & Hts & Hbuilt).
  destruct Hbuilt as (d0 & l & Hd0 & _ & Hname & _). simplify_eq. simpl in *.
  subst name'.
  exists cls, inst, {| fn_name := "check_" +:+ ed_id d; fn_default_c := inst |}.
  split_and!; [done| |done|done].
  unfold method, generated; simpl.
  rewrite lookup_insert_ne by done.
  rewrite (foldl_add_check_last _ _ _ _ _ _ Hts); [done|].
  intros (p' & Heq & (t' & -> & (j & Hj)%list_elem_of_lookup_1)
            %list_elem_of_fmap)%list_elem_of_fmap.
  rewrite lookup_drop in Hj.
  destruct (Forall2_lookup_r _ _ _ _ _ Hb Hj) as (e' & He' & Hbuilt').
  destruct Hbuilt' as (d' & l' & Hd' & _ & Hname' & _).
  apply (Hlater (S k + j)%nat e' d'); [lia|done..|].
  rewrite Hname' in Heq. simpl in Heq. by simplify_eq.
Qed.


Lemma valid_config_mono (h h' : heap) cfg :
  h `prefix_of` h' → valid_config h cfg = true → valid_config h' cfg = true.
Proof.
  intros Hp Hvalid. pose proof Hvalid as Hv. unfold valid_config in Hv.
  destruct (view_config h cfg) as [[name es]|] eqn:Hview; [|done].
  unfold valid_config. rewrite (view_config_mono _ _ _ _ Hp Hview).
  apply andb_true_iff in Hv as [Hne Hall]. apply andb_true_iff. split; [done|].
  apply forallb_forall. intros e He.
  eapply forallb_forall in Hall; [|done]. unfold valid_entry in *.
  destruct (view_entry h e) as [d|] eqn:Hd; [|done].
  by rewrite (view_entry_mono _ _ _ _ Hp Hd).
Qed.

(** A configuration that is not a file name is used as it is. *)
Lemma load_config_structure env (c : val) (h : heap) :
  (∀ filename, c ≠ VStr filename) → load_config env c h = (Ok c, h).
Proof. intros Hc. destruct c; try done. by destruct (Hc s). Qed.

Lemma generated_same_names suite_name
    (ts ts2 : list (string * check_cls DS * instance DS)) :
  ts2.*1 = ts.*1 →
  class_name (generated suite_name ts2) = class_name (generated suite_name ts) ∧
  supported_ds (generated suite_name ts2) = supported_ds (generated suite_name ts) ∧
  method_names (generated suite_name ts2) = method_names (generated suite_name ts).
Proof.
  intros Heq. split_and!.
  - done.
  - rewrite !supported_ds_generated, !ds_sets_classes. by rewrite Heq.
  - unfold method_names, generated; simpl.
    rewrite !dom_insert_L, !dom_foldl_add_check. by rewrite Heq.
Qed.

(** C8.  For a configuration given as a structure: when a call of
    [get_checker_class] returns a class, a second call on the same
    configuration, in the store the first one left, returns a class too,
    with the same name, the same [supported_ds] and the same method
    names. *)
Theorem assembly_is_idempotent env (c : val) (h h1 : heap) ty1 :
  (∀ filename, c ≠ VStr filename) →
  get_checker_class env c h = (Ok ty1, h1) →
  ∃ ty2 h2,
    get_checker_class env c h1 = (Ok ty2, h2) ∧
    class_name ty2 = class_name ty1 ∧
    supported_ds ty2 = supported_ds ty1 ∧
    method_names ty2 = method_names ty1.
Proof.
  intros Hc Hrun.
  destruct (get_checker_class_ok _ _ _ _ _ Hrun)
    as (cfg & h0 & name & es & ts & Hload & Hview & Hvalid & Hbuild & ->).
  rewrite (load_config_structure _ _ _ Hc) in Hload. injection Hload as <- <-.
  destruct (valid_config_entries _ _ _ _ Hview Hvalid) as [_ Hall].
  pose proof (extends_build_all env es h) as Hp. rewrite Hbuild in Hp. simpl in Hp.
  destruct (build_all_again env h es Hall h h1 h1 ts) as (ts2 & h2 & Hrun2 & Heq);
    [done..|].
  exists (generated name ts2), h2. split; [|by apply generated_same_names].
  unfold get_checker_class.
  rewrite bind_run, (load_config_structure _ _ _ Hc).
  rewrite (assemble_valid env h1 c name es).
  - by rewrite Hrun2.
  - by eapply view_config_mono.
  - by eapply valid_config_mono.
Qed.

(** Building a literal always returns. *)
Lemma returns_bind {A B} (m : M A) (f : A → M B) :
  returns m → (∀ a, returns (f a)) → returns (m ≫= f).
Proof.
  intros Hm Hf h. destruct (Hm h) as (a & h1 & Ha).
  destruct (Hf a h1) as (b & h2 & Hb). exists b, h2. by rewrite bind_run, Ha.
Qed.

Lemma returns_ret {A} (a : A) : returns (mret a).
Proof. intros h. by exists a, h. Qed.

Lemma returns_alloc o : returns (alloc o).
Proof. intros h. by eexists _, _. Qed.

Lemma returns_build t : returns (build t).
Proof.
  induction t as [| | | | |ts IH|ts IH|items IH] using tree_ind_nested;
    try apply returns_ret.
  - simpl. apply returns_bind.
    + induction IH as [|t ts Ht _ IHts]; [apply returns_ret|].
      apply returns_bind; [done|]. intros v.
      apply returns_bind; [done|]. intros vs. apply returns_ret.
    + intros vs. apply returns_bind; [apply returns_alloc|].
      intros l. apply returns_ret.
  - simpl. apply returns_bind.
    + induction IH as [|t ts Ht _ IHts]; [apply returns_ret|].
      apply returns_bind; [done|]. intros v.
      apply returns_bind; [done|]. intros vs. apply returns_ret.
    + intros vs. apply returns_bind; [apply returns_alloc|].
      intros l. apply returns_ret.
  - simpl. apply returns_bind.
    + induction IH as [|[k v] items [Hk Hv] _ IHitems]; [apply returns_ret|].
      apply returns_bind; [done|]. intros k'.
      apply returns_bind; [done|]. intros v'.
      apply returns_bind; [done|]. intros r. apply returns_ret.
    + intros kvs. apply returns_bind; [apply returns_alloc|].
      intros l. apply returns_ret.
Qed.

(** What the three stages of [get_checker_class] can raise is never the
    error of an intersection without arguments. *)
Lemma load_config_raises env (c : val) (h h' : heap) x :
  load_config env c h = (Raise x, h') →
  x ≠ TypeError IntersectionNeedsArgument.
Proof.
  unfold load_config. destruct c; try done.
  destruct (env_yaml env s) as [t| |]; [|by intros [= <- _]..].
  rewrite bind_run. destruct (returns_build t h) as (v & h1 & ->).
  rewrite bind_run. unfold py_isinstance.
  destruct (isinstance h1 v Tdict); by intros [= <- _].
Qed.

Lemma resolve_raises env check_name x :
  resolve env check_name = Raise x → x ≠ TypeError IntersectionNeedsArgument.
Proof.
  unfold resolve, resolve_check, py_split. rewrite !bind_run.
  unfold mret at 1, M_ret at 1. cbv beta iota.
  unfold import_module.
  match goal with
  | |- context [starts_with "." ?s] => destruct (starts_with "." s)
  end; [by intros [= <-]|].
  case_bool_decide; [by intros [= <-]|].
  match goal with
  | |- context [env_modules env ?s] => destruct (env_modules env s) as [m|]
  end; [|by intros [= <-]].
  rewrite bind_run. unfold mret at 1, M_ret at 1. cbv beta iota.
  unfold getattr.
  match goal with |- context [m ?s] => destruct (m s) end; by intros [= <-].
Qed.

Lemma params_result_raises (cls : check_cls DS) (h : heap) merged x :
  params_result cls h merged = Raise x →
  x ≠ TypeError IntersectionNeedsArgument.
Proof.
  unfold params_result. destruct (cls_required_parameters cls) as [required|]; [|done].
  destruct (fields_result h merged required true) as [[]|y] eqn:Hy; [done|].
  apply fields_result_raises in Hy.
  destruct y as [m|m| | | | | |]; try done; intros [= <-]; try done.
Qed.

Lemma build_all_raises env (h0 : heap) es :
  Forall (λ e, is_Some (view_entry h0 e)) es →
  ∀ (h h' : heap) x,
    h0 `prefix_of` h → build_all env es h = (Raise x, h') →
    x ≠ TypeError IntersectionNeedsArgument.
Proof.
  induction 1 as [|e es [d Hd] _ IH]; intros h h' x Hp; simpl; [done|].
  rewrite bind_run.
  rewrite (build_instance_view _ _ _ _ (view_entry_mono _ _ _ _ Hp Hd)).
  destruct (resolve env (ed_name d)) as [c|y] eqn:Hres;
    [|intros [= <- _]; by eapply resolve_raises].
  cbv zeta. destruct (params_result c _ _) as [[]|y] eqn:Hpar;
    [|intros [= <- _]; by eapply params_result_raises].
  rewrite bind_run.
  destruct (build_all env es _) as [[ts|y] h1] eqn:Hrest; [done|].
  intros [= <- _]. eapply IH; [|exact Hrest].
  etrans; [exact Hp|]. by apply prefix_app_r.
Qed.

(** What [get_checker_class] reads of a valid configuration. *)
Lemma view_config_reads (h : heap) cfg suite_name es :
  view_config h cfg = Some (suite_name, es) →
  ∃ lc, py_getitem cfg "checks" h = (Ok (VRef lc), h) ∧
        py_iter (VRef lc) h = (Ok es, h).
Proof.
  intros (lc & (l & items & -> & Hl & Hc)%field_mapping & _ & Hlc)%view_config_fields.
  exists lc. split.
  - by apply py_getitem_dict with (items := items).
  - by apply py_iter_list.
Qed.

(** C10.  Once [validate_config] has accepted a configuration, the loop of
    [get_checker_class] over its entries, if it completes, has collected
    one set per entry, so at least one, and the intersection is computed
    and not refused; and no call of [get_checker_class] ends with the
    error of an intersection without arguments. *)
Theorem intersection_has_an_argument env (c : val) (h : heap) :
  (∀ checks check_infos st (h1 h2 h' : heap),
     (validate_config c h).1 = Ok tt →
     py_getitem c "checks" h = (Ok checks, h1) →
     py_iter checks h1 = (Ok check_infos, h2) →
     for_fold check_infos (check_step env) (∅, []) h2 = (Ok st, h') →
     length st.2 = length check_infos ∧ st.2 ≠ [] ∧
     set_intersection st.2 h' = (Ok (intersection st.2), h')) ∧
  (get_checker_class env c h).1 ≠ Raise (TypeError IntersectionNeedsArgument).
Proof.
  split.
  - intros checks es st h1 h2 h' Hvalid%validate_config_ok Hget Hiter Hloop.
    pose proof Hvalid as Hv. unfold valid_config in Hv.
    destruct (view_config h c) as [[name es']|] eqn:Hview; [|done].
    destruct (valid_config_entries _ _ _ _ Hview Hvalid) as [Hne _].
    destruct (view_config_reads _ _ _ _ Hview) as (lc & Hget' & Hiter').
    rewrite Hget' in Hget. injection Hget as <- <-.
    rewrite Hiter' in Hiter. injection Hiter as <- <-.
    rewrite for_fold_build_all in Hloop.
    destruct (build_all env es' h) as [[ts|x] h3] eqn:Hbuild; [|done].
    injection Hloop as <- <-. apply build_all_length in Hbuild.
    rewrite foldl_add_check_sets. simpl.
    assert (length (ds_sets ts) = length es') as Hlen
      by (unfold ds_sets; by rewrite length_fmap).
    assert (ds_sets ts ≠ []) as Hsets.
    { intros Hnil. rewrite Hnil in Hlen. by destruct es'. }
    split_and!; [done..|]. by apply set_intersection_ok.
  - unfold get_checker_class. rewrite bind_run.
    destruct (load_config env c h) as [[cfg|x] h0] eqn:Hload;
      [|by apply load_config_raises in Hload; intros [= ->]].
    destruct (valid_config h0 cfg) eqn:Hvalid.
    + pose proof Hvalid as Hv. unfold valid_config in Hv.
      destruct (view_config h0 cfg) as [[name es]|] eqn:Hview; [|done].
      rewrite (assemble_valid _ _ _ _ _ Hview Hvalid).
      destruct (valid_config_entries _ _ _ _ Hview Hvalid) as [_ Hall].
      destruct (build_all env es h0) as [[ts|x] h1] eqn:Hbuild; [done|].
      simpl. intros [= ->].
      by eapply (build_all_raises env h0 es Hall h0 h1).
    + destruct (assemble_invalid env _ _ Hvalid) as (x & -> & Hx). simpl.
      destruct (validate_config cfg h0) as [r h1] eqn:Hrun. simpl in Hx. subst r.
      apply validate_config_raises in Hrun. intros [= ->].
      by destruct Hrun as [|[|]].
Qed.

End with_ds.

Lemma intersection_has_an_argument_witness :
  ∃ st h',
    for_fold [VRef 1; VRef 3] (check_step Tests.env) (∅, [])
      (store_of Tests.supported_ds_config) = (Ok st, h') ∧
    length st.2 = 2%nat ∧
    set_intersection st.2 h' = (Ok (intersection st.2), h').
Proof.
  destruct (for_fold [VRef 1; VRef 3] (check_step Tests.env) (∅, [])
              (store_of Tests.supported_ds_config)) as [[st|x] h'] eqn:Hloop;
    [|vm_compute in Hloop; discriminate].
  exists st, h'. split; [done|].
  destruct (proj1 (intersection_has_an_argument Tests.env
                     (value_of Tests.supported_ds_config)
                     (store_of Tests.supported_ds_config))
              (VRef 4) [VRef 1; VRef 3] st
              (store_of Tests.supported_ds_config)
              (store_of Tests.supported_ds_config) h')
    as (Hlen & _ & Hinter).
  - reflexivity.
  - reflexivity.
  - reflexivity.
  - exact Hloop.
  - by split.
Defined.

Lemma assembly_is_idempotent_witness :
  ∃ ty1 h1 ty2 h2,
    get_checker_class Tests.env (value_of Tests.supported_ds_config)
      (store_of Tests.supported_ds_config) = (Ok ty1, h1) ∧
    get_checker_class Tests.env (value_of Tests.supported_ds_config) h1 =
      (Ok ty2, h2) ∧
    class_name ty2 = class_name ty1 ∧
    supported_ds ty2 = supported_ds ty1 ∧
    method_names ty2 = method_names ty1.
Proof.
  destruct (get_checker_class Tests.env (value_of Tests.supported_ds_config)
              (store_of Tests.supported_ds_config)) as [[ty1|x] h1] eqn:Hrun;
    [|vm_compute in Hrun; discriminate].
  assert (∀ filename, value_of Tests.supported_ds_config ≠ VStr filename)
    as Hc by (intros filename Heq; vm_compute in Heq; discriminate).
  destruct (assembly_is_idempotent Tests.env _ _ _ _ Hc Hrun)
    as (ty2 & h2 & Hrun2 & Hsame).
  by exists ty1, h1, ty2, h2.
Defined.


Lemma method_delegates_to_own_instance_witness :
  ∃ ty h' f,
    get_checker_class Tests.env (value_of Examples.two_checks_config)
      (store_of Examples.two_checks_config) = (Ok ty, h') ∧
    method ty "check_one" = Some f ∧
    inst_kwargs (fn_default_c f) = VRef 6 ∧
    cls_supported_ds (inst_cls (fn_default_c f)) = [1; 2; 3]%Z ∧
    ∀ self ds hh, call_inner f self ds hh = do_check (fn_default_c f) ds hh.
Proof.
  destruct (get_checker_class Tests.env (value_of Examples.two_checks_config)
              (store_of Examples.two_checks_config)) as [[ty|x] h'] eqn:Hrun;
    [|vm_compute in Hrun; discriminate].
  destruct (get_checker_class_ok _ _ _ _ _ Hrun)
    as (cfg & h0 & name & es & ts & Hload & Hview & _ & Hbuild & _).
  pose proof Hload as Hload'. injection Hload' as <- <-.
  pose proof Hview as Hview'. vm_compute in Hview'. injection Hview' as <- <-.
  destruct (method_delegates_to_own_instance Tests.env
              (value_of Examples.two_checks_config)
              (store_of Examples.two_checks_config) h'
              (store_of Examples.two_checks_config) ty
              (value_of Examples.two_checks_config) "test_suite"
              [VRef 1; VRef 3] ts 0%nat (VRef 1)
              {| ed_id := "one";
                 ed_name := "cc_yaml.tests.SupportDsTestCheckClass1";
                 ed_params := []; ed_level := None |}
              Hrun Hload Hview Hbuild eq_refl eq_refl)
    as (cls & inst & f & Hts & Hm & Hf & Hcall).
  - intros j e' d' Hj He' Hd'.
    destruct j as [|[|j]]; [lia| |discriminate].
    injection He' as <-. vm_compute in Hd'. injection Hd' as <-. discriminate.
  - exists ty, h', f. split_and!; [done|exact Hm| | |].
    + vm_compute in Hbuild. injection Hbuild as <- _.
      vm_compute in Hts. injection Hts as <- <-. by rewrite Hf.
    + vm_compute in Hbuild. injection Hbuild as <- _.
      vm_compute in Hts. injection Hts as <- <-. by rewrite Hf.
    + intros self ds hh. rewrite Hcall. by rewrite Hf.
Defined.

(** [test_supported_ds] gives both its entries the [check_id] "one": the
    method [check_one] holds the instance of the second entry, not that of
    the first. *)
Lemma earlier_entry_loses_its_method : ¬ every_entry_keeps_its_method Tests.env.
Proof.
  intros Hs.
  destruct (get_checker_class Tests.env (value_of Tests.supported_ds_config)
              (store_of Tests.supported_ds_config)) as [[ty|x] h'] eqn:Hrun;
    [|vm_compute in Hrun; discriminate].
  destruct (get_checker_class_ok _ _ _ _ _ Hrun)
    as (cfg & h0 & name & es & ts & Hload & Hview & _ & Hbuild & Hty).
  pose proof Hload as Hload'. injection Hload' as <- <-.
  pose proof Hview as Hview'. vm_compute in Hview'. injection Hview' as <- <-.
  destruct ts as [|[[name1 cls1] inst1] ts];
    [vm_compute in Hbuild; discriminate|].
  destruct (Hs _ _ _ _ _ _ _ _ _ 0%nat name1 cls1 inst1
              Hrun Hload Hview Hbuild eq_refl) as (f & Hf & Hinst).
  vm_compute in Hbuild. injection Hbuild as <- <- <- <- <-.
  subst ty. vm_compute in Hf. injection Hf as <-.
  apply (f_equal inst_kwargs) in Hinst. discriminate.
Qed.

Lemma supported_ds_is_intersection_witness :
  ∃ ty h', get_checker_class Tests.env (value_of Tests.supported_ds_config)
             (store_of Tests.supported_ds_config) = (Ok ty, h') ∧
    ∃ ds, supported_ds ty = Some ds ∧ NoDup ds ∧
      ∀ x : Z, x ∈ ds ↔ x ∈ [2; 3]%Z.
Proof.
  destruct (get_checker_class Tests.env (value_of Tests.supported_ds_config)
              (store_of Tests.supported_ds_config)) as [[ty|x] h'] eqn:Hrun;
    [|vm_compute in Hrun; discriminate].
  exists ty, h'. split; [done|].
  destruct (supported_ds_is_intersection _ _ _ _ _ Hrun)
    as (cfg & h0 & classes & ds & Hload & Hres & _ & Hds & Hnd & Hin & _).
  exists ds. split_and!; [done..|].
  injection Hload as <- <-. vm_compute in Hres. injection Hres as <-.
  intros x. rewrite Hin. split.
  - intros Hx.
    pose proof (Hx Tests.SupportDsTestCheckClass1 ltac:(set_solver)) as H1.
    pose proof (Hx Tests.SupportDsTestCheckClass2 ltac:(set_solver)) as H2.
    simpl in H1, H2. set_solver.
  - intros Hx cls Hcls.
    apply elem_of_cons in Hcls as [->|Hcls]; [set_solver|].
    apply elem_of_cons in Hcls as [->|Hcls]; [set_solver|].
    by apply elem_of_nil in Hcls.
Defined.

End Claims.

(** ** Further properties of the parser and of the suite generator *)

Module Properties.
Import Py YamlParser SuiteGenerator View AView Stated Shape.
Import Frame ValidatorFacts AssemblerFacts DictFacts ClassFacts Claims.

#[local] Set Warnings "-clear-no-such-hyp".

(** *** [validate_field] *)

(** X1.  A required field check passes exactly on a mapping that holds
    the key with a value of the expected type; when it passes the store is
    as before. *)
Theorem required_field_passes_iff (h h' : heap) (d : val) key t :
  validate_field key t d true h = (Ok tt, h') ↔
  h' = h ∧ ∃ v, field h d key = Some v ∧ isinstance h v t = true.
Proof.
  split.
  - intros Hrun.
    assert (h' = h) as ->.
    { pose proof (reads_validate_field key t d true h) as Hr.
      by rewrite Hrun in Hr. }
    split; [done|].
    apply validate_field_required_ok in Hrun as (l & items & v & -> & Hl & Hv & Hty).
    exists v. unfold field. by rewrite Hl.
  - intros [-> (v & (l & items & -> & Hl & Hv)%field_mapping & Hty)].
    rewrite (validate_field_dict _ _ _ _ _ _ Hl). unfold field_result.
    by rewrite Hv, Hty.
Qed.

Lemma required_field_passes_iff_witness :
  validate_field "suite_name" Tstr (value_of Tests.supported_ds_config) true
    (store_of Tests.supported_ds_config) =
  (Ok tt, store_of Tests.supported_ds_config).
Proof.
  apply (proj2 (required_field_passes_iff _ _ _ _ _)).
  split; [reflexivity|]. exists (VStr "test_suite"). split; reflexivity.
Defined.

(** X2.  On a mapping, a field check has one of three outcomes, and the
    store is as before: the key is absent, which is the missing-key error
    if the field is required and no error otherwise; the key is there with
    a value of the expected type, which is no error; the key is there with
    another value, which is the type error, required or not. *)
Theorem field_check_on_mapping (h : heap) l items key t required :
  h !! l = Some (ODict items) →
  validate_field key t (VRef l) required h =
    (match dict_get (VStr key) items with
     | None =>
         if required then Raise (ValueError (RequiredKeyNotPresent key))
         else Ok tt
     | Some v =>
         if isinstance h v t then Ok tt
         else Raise (TypeError (NotOfType key t))
     end, h).
Proof. apply validate_field_dict. Qed.

Lemma field_check_on_mapping_witness :
  validate_field "check_level" Tstr (VRef 1) false
    (store_of Tests.supported_ds_config) =
  (Ok tt, store_of Tests.supported_ds_config).
Proof.
  exact (field_check_on_mapping (store_of Tests.supported_ds_config) 1 _
           "check_level" Tstr false eq_refl).
Defined.

(** *** [validate_config] *)

(** X3.  [validate_config] accepts a configuration exactly when it is a
    mapping whose [suite_name] is text and whose [checks] is a list that
    is not empty, each entry of which is a mapping with a text [check_id],
    a mapping [parameters], a text [check_name] and a [check_level] that
    is absent or one of HIGH, MEDIUM and LOW. *)
Theorem validate_config_accepts_iff (h : heap) (c : val) :
  validate_config c h = (Ok tt, h) ↔
  ∃ suite_name check_infos,
    view_config h c = Some (suite_name, check_infos) ∧
    check_infos ≠ [] ∧
    Forall (λ e, ∃ d, view_entry h e = Some d ∧
                      (ed_level d = None ∨
                       ∃ level, ed_level d = Some (VStr level) ∧
                                level ∈ allowed_levels))
      check_infos.
Proof.
  assert (∀ level, level_ok level = true ↔
            level = None ∨ ∃ s, level = Some (VStr s) ∧ s ∈ allowed_levels)
    as Hlevel.
  { intros [v|]; unfold level_ok; [|naive_solver]. split.
    - intros (s & -> & Hs)%py_in_strings_text. eauto.
    - intros [|(s & [= ->] & Hs)]; [done|]. unfold py_in_strings.
      apply existsb_exists. exists s. rewrite <- list_elem_of_In.
      split; [done|]. by apply bool_decide_eq_true. }
  rewrite (reads_eq _ h (reads_validate_config c)).
  split.
  - intros [= Hok]. apply validate_config_ok in Hok.
    pose proof Hok as Hv. unfold valid_config in Hv.
    destruct (view_config h c) as [[name es]|] eqn:Hview; [|done].
    exists name, es. split; [done|].
    apply andb_true_iff in Hv as [Hne%bool_decide_eq_true Hall].
    split; [done|]. apply Forall_forall. intros e He%list_elem_of_In.
    eapply forallb_forall in Hall; [|done]. unfold valid_entry in Hall.
    destruct (view_entry h e) as [d|]; [|done].
    exists d. split; [done|]. by apply Hlevel.
  - intros (name & es & Hview & Hne & Hall). f_equal.
    apply validate_config_ok. unfold valid_config. rewrite Hview.
    apply andb_true_iff. split; [by apply bool_decide_eq_true|].
    apply forallb_forall. intros e He%list_elem_of_In.
    eapply Forall_forall in Hall as (d & Hd & Hl); [|done].
    unfold valid_entry. rewrite Hd. by apply Hlevel.
Qed.

Lemma validate_config_accepts_iff_witness :
  validate_config (value_of Tests.supported_ds_config)
    (store_of Tests.supported_ds_config) =
  (Ok tt, store_of Tests.supported_ds_config).
Proof.
  apply (proj2 (validate_config_accepts_iff _ _)).
  exists "test_suite", [VRef 1; VRef 3]. split_and!.
  - reflexivity.
  - discriminate.
  - repeat constructor; eexists; (split; [reflexivity|by left]).
Defined.

Lemma for_each_validate_first_invalid (h : heap) es1 e es2 x :
  Forall (λ e, valid_entry h e = true) es1 →
  (validate_check_info e h).1 = Raise x →
  for_each (es1 ++ e :: es2) validate_check_info h = (Raise x, h).
Proof.
  intros Hall He. induction Hall as [|e1 es1 H1 _ IH]; simpl.
  - rewrite bind_run, (reads_eq _ h (reads_validate_check_info e)).
    by rewrite He.
  - rewrite bind_run, (reads_eq _ h (reads_validate_check_info e1)).
    apply validate_check_info_ok in H1. by rewrite H1.
Qed.

(** X4.  Entries are validated in order and the first invalid one decides:
    when the two top-level fields pass, the entries before an entry are
    valid and that entry is not, [validate_config] raises what the checks
    of that entry raise, whatever the entries after it are. *)
Theorem first_invalid_entry_is_reported
    (h : heap) (c : val) suite_name es1 e es2 :
  view_config h c = Some (suite_name, es1 ++ e :: es2) →
  Forall (λ e, valid_entry h e = true) es1 →
  valid_entry h e = false →
  ∃ x, validate_check_info e h = (Raise x, h) ∧
       validate_config c h = (Raise x, h).
Proof.
  intros Hview Hall Hbad.
  destruct (validate_check_info e h).1 as [[]|x] eqn:He.
  { apply validate_check_info_ok in He. congruence. }
  exists x. split.
  - by rewrite (reads_eq _ h (reads_validate_check_info e)), He.
  - rewrite (validate_config_view _ _ _ _ Hview).
    by rewrite (for_each_validate_first_invalid _ _ _ _ _ Hall He).
Qed.

Lemma first_invalid_entry_is_reported_witness :
  validate_check_info (VRef 5) (store_of Examples.second_entry_invalid_config) =
    (Raise (TypeError (NotOfType "check_id" Tstr)),
     store_of Examples.second_entry_invalid_config) ∧
  validate_config (value_of Examples.second_entry_invalid_config)
    (store_of Examples.second_entry_invalid_config) =
    (Raise (ValueError (RequiredKeyNotPresent "parameters")),
     store_of Examples.second_entry_invalid_config).
Proof.
  split; [reflexivity|].
  destruct (first_invalid_entry_is_reported
              (store_of Examples.second_entry_invalid_config)
              (value_of Examples.second_entry_invalid_config)
              "hello" [VRef 1] (VRef 2) [VRef 5]) as (x & He & Hc).
  - reflexivity.
  - repeat constructor.
  - reflexivity.
  - vm_compute in He. injection He as <-. exact Hc.
Defined.

(** X5.  Validation of an entry looks at [check_id], [parameters],
    [check_name] and [check_level] only, and of the first three at
    nothing but their presence and type: two mappings whose required
    fields are alike in that and that have the same [check_level] are
    validated alike, whatever other keys they hold. *)
Theorem only_named_fields_matter (h : heap) l1 l2 items1 items2 :
  h !! l1 = Some (ODict items1) →
  h !! l2 = Some (ODict items2) →
  (∀ key t, (key, t) ∈ required_percheck →
     alike h t (dict_get (VStr key) items1) (dict_get (VStr key) items2)) →
  dict_get (VStr "check_level") items1 = dict_get (VStr "check_level") items2 →
  validate_check_info (VRef l1) h = validate_check_info (VRef l2) h.
Proof.
  intros H1 H2 Heq Hlevel.
  rewrite (validate_check_info_dict _ _ _ H1), (validate_check_info_dict _ _ _ H2).
  f_equal. unfold entry_result, level_result. rewrite Hlevel.
  assert (fields_result h items1 required_percheck true =
          fields_result h items2 required_percheck true) as ->.
  { revert Heq. generalize required_percheck.
    induction l as [|[key t] table IH]; intros Heq; simpl; [done|].
    rewrite IH by (intros k t' ?; apply Heq; by right).
    specialize (Heq key t ltac:(by left)). unfold alike in Heq.
    unfold field_result.
    destruct (dict_get (VStr key) items1), (dict_get (VStr key) items2);
      try done. by rewrite Heq. }
  cbn [fields_result optional_percheck fst snd]. unfold field_result.
  by rewrite Hlevel.
Qed.

Lemma only_named_fields_matter_witness :
  validate_check_info (VRef 1) (store_of Examples.plain_and_annotated) =
  validate_check_info (VRef 3) (store_of Examples.plain_and_annotated).
Proof.
  eapply (only_named_fields_matter (store_of Examples.plain_and_annotated) 1 3).
  - reflexivity.
  - reflexivity.
  - intros key t Hkey. unfold required_percheck in Hkey.
    repeat (apply elem_of_cons in Hkey as [[= -> ->]|Hkey]; [reflexivity|]).
    by apply elem_of_nil in Hkey.
  - reflexivity.
Defined.

(** What the field checks raise, apart from the error of a reference to
    nowhere. *)
Lemma validate_field_dangling (h h' : heap) d key t req l :
  validate_field key t d req h = (Raise (Dangling l), h') →
  d = VRef l ∧ h !! l = None.
Proof.
  destruct d as [| | | s | |l0];
    try (unfold validate_field; run; destruct req; simpl; intros; simplify_eq; done).
  - unfold validate_field, py_contains, py_getitem. run.
    destruct req; simpl; destruct (substringb key s); simpl;
      intros; simplify_eq; done.
  - destruct (h !! l0) as [[items|xs|xs]|] eqn:Hl.
    + rewrite (validate_field_dict _ _ _ _ _ _ Hl). unfold field_result.
      destruct (dict_get (VStr key) items) as [v|]; [destruct (isinstance h v t)|];
        destruct req; intros; simplify_eq; done.
    + unfold validate_field, py_contains, py_getitem. run.
      destruct (existsb (key_eqb (VStr key)) xs) eqn:Hin; destruct req;
        repeat (progress (rewrite ?Hl, ?Hin; simpl)); intros; simplify_eq; done.
    + unfold validate_field, py_contains, py_getitem. run.
      destruct (existsb (key_eqb (VStr key)) xs) eqn:Hin; destruct req;
        repeat (progress (rewrite ?Hl, ?Hin; simpl)); intros; simplify_eq; done.
    + unfold validate_field, py_contains, py_getitem. run.
      destruct req; repeat (progress (rewrite ?Hl; simpl));
        intros; simplify_eq; done.
Qed.

Lemma fields_result_kinds (h : heap) items table req x :
  fields_result h items table req = Raise x →
  is_value_error x = true ∨ is_type_error x = true.
Proof.
  induction table as [|f table IH]; simpl; [done|].
  unfold field_result.
  destruct (dict_get (VStr f.1) items) as [v|];
    [destruct (isinstance h v f.2)|destruct req]; intros; simplify_eq; auto.
Qed.

Lemma entry_result_kinds (h : heap) items x :
  entry_result h items = Raise x →
  is_value_error x = true ∨ is_type_error x = true.
Proof.
  unfold entry_result, level_result.
  destruct (fields_result h items required_percheck true) eqn:H1;
    [|intros; simplify_eq; by eapply fields_result_kinds].
  destruct (fields_result h items optional_percheck false) eqn:H2;
    [|intros; simplify_eq; by eapply fields_result_kinds].
  destruct (dict_get (VStr "check_level") items) as [v|]; [|done].
  destruct (py_in_strings v allowed_levels); intros; simplify_eq. by left.
Qed.

Lemma field_error_kinds x :
  field_error x = true →
  is_value_error x = true ∨ is_type_error x = true ∨ ∃ l, x = Dangling l.
Proof. destruct x as [m|m| | | | | |l]; try done; eauto. Qed.

Lemma validate_check_info_kinds (h h' : heap) e x :
  validate_check_info e h = (Raise x, h') →
  is_value_error x = true ∨ is_type_error x = true ∨
  ∃ l, e = VRef l ∧ h !! l = None.
Proof.
  destruct (validate_field "check_id" Tstr e true h) as [[[]|y] h1] eqn:Hf.
  - apply validate_field_required_ok in Hf as (l & items & v & -> & Hl & _).
    rewrite (validate_check_info_dict _ _ _ Hl). intros [= Hr _].
    destruct (entry_result_kinds _ _ _ Hr); auto.
  - unfold validate_check_info, validate_fields.
    cbn [for_each required_percheck fst snd]. rewrite !bind_run, Hf.
    intros [= <- _].
    destruct (field_error_kinds y) as [|[|[l ->]]]; auto.
    + by eapply validate_field_raises.
    + apply validate_field_dangling in Hf. eauto.
Qed.

Lemma for_each_validate_kinds (h h' : heap) es x :
  for_each es validate_check_info h = (Raise x, h') →
  is_value_error x = true ∨ is_type_error x = true ∨
  ∃ l, VRef l ∈ es ∧ h !! l = None.
Proof.
  revert h'. induction es as [|e es IH]; intros h'; simpl; [done|].
  rewrite bind_run, (reads_eq _ h (reads_validate_check_info e)).
  destruct (validate_check_info e h).1 as [[]|y] eqn:He.
  - intros Hr. destruct (IH _ Hr) as [|[|(l & Hl & Hn)]]; auto.
    right; right. exists l. split; [by right|done].
  - intros [= <- _].
    destruct (validate_check_info_kinds h h e y) as [|[|(l & -> & Hn)]]; auto.
    + by rewrite (reads_eq _ h (reads_validate_check_info e)), He.
    + right; right. exists l. split; [by left|done].
Qed.

(** X6.  In a store whose objects hold no reference to nowhere, and for a
    configuration that is not one either, [validate_config] raises nothing
    but the value error and the type error. *)
Theorem validation_raises_value_or_type_error (h h' : heap) (c : val) x :
  closed h → bound h c →
  validate_config c h = (Raise x, h') →
  is_value_error x = true ∨ is_type_error x = true.
Proof.
  intros Hclosed Hbound Hrun.
  destruct (view_config h c) as [[name es]|] eqn:Hview.
  - rewrite (validate_config_view _ _ _ _ Hview) in Hrun.
    apply view_config_fields in Hview as (lc & _ & _ & Hlc).
    destruct (for_each es validate_check_info h) as [[[]|y] h1] eqn:He;
      simpl in Hrun.
    + case_bool_decide; simplify_eq. by left.
    + simplify_eq.
      destruct (for_each_validate_kinds _ _ _ _ He) as [|[|(l & Hin & Hn)]]; auto.
      specialize (Hclosed _ _ Hlc). simpl in Hclosed.
      eapply Forall_forall in Hclosed; [|exact Hin].
      simpl in Hclosed. rewrite Hn in Hclosed. by destruct Hclosed.
  - destruct (validate_field "checks" Tlist c true h) as [[[]|y] h1] eqn:Hf.
    + apply validate_field_required_ok in Hf as (l & items & v & -> & Hl & _).
      unfold validate_config in Hrun.
      rewrite bind_run, (validate_fields_dict _ _ _ _ _ Hl) in Hrun.
      destruct (fields_result h items required_global true) as [[]|y] eqn:Hy.
      * exfalso. revert Hy Hview. unfold view_config. rewrite Hl.
        cbn [fields_result required_global fst snd]. unfold field_result.
        destruct (dict_get (VStr "checks") items) as [v1|]; [|done].
        destruct (isinstance h v1 Tlist) eqn:H1; [|done].
        destruct (dict_get (VStr "suite_name") items) as [v2|]; [|done].
        destruct (isinstance h v2 Tstr) eqn:H2; [|done].
        destruct v1 as [| | | | |lc]; try done. destruct v2; try done.
        simpl in H1. by destruct (h !! lc) as [[]|].
      * simplify_eq. by eapply fields_result_kinds.
    + unfold validate_config, validate_fields in Hrun.
      cbn [for_each required_global fst snd] in Hrun.
      rewrite !bind_run, Hf in Hrun. simplify_eq.
      destruct (field_error_kinds x) as [|[|[l ->]]]; auto.
      * by eapply validate_field_raises.
      * apply validate_field_dangling in Hf as [-> Hn].
        simpl in Hbound. rewrite Hn in Hbound. by destruct Hbound.
Qed.

Lemma validation_raises_value_or_type_error_witness :
  ∃ x, validate_config (value_of Tests.missing_parameters_config)
         (store_of Tests.missing_parameters_config) =
       (Raise x, store_of Tests.missing_parameters_config) ∧
       (is_value_error x = true ∨ is_type_error x = true).
Proof.
  eexists. split; [reflexivity|].
  apply (validation_raises_value_or_type_error
           (store_of Tests.missing_parameters_config)
           (store_of Tests.missing_parameters_config)
           (value_of Tests.missing_parameters_config)).
  - intros l o Hl.
    repeat (destruct l as [|l];
            [injection Hl as <-; repeat constructor; vm_compute; eauto|]).
    discriminate.
  - vm_compute. eauto.
  - reflexivity.
Defined.

(** *** Check names *)

Lemma split_on_cons sep s : ∃ p ps, split_on sep s = p :: ps.
Proof.
  induction s as [|c s (p & ps & IH)]; simpl; [eauto|].
  case_bool_decide; [eauto|]. rewrite IH. eauto.
Qed.

Lemma split_on_dotless s : substringb "." s = false → split_on "." s = [s].
Proof.
  induction s as [|c s IH]; simpl; [done|].
  intros [Hc Hs]%orb_false_iff. rewrite andb_true_r in Hc.
  apply bool_decide_eq_false in Hc.
  rewrite bool_decide_false by congruence. by rewrite (IH Hs).
Qed.

Lemma split_on_app sep a b :
  split_on sep (a +:+ String sep b) = split_on sep a ++ split_on sep b.
Proof.
  induction a as [|c a IH]; simpl.
  - by rewrite bool_decide_true.
  - case_bool_decide; [by rewrite IH|].
    rewrite IH. by destruct (split_on_cons sep a) as (p & ps & ->).
Qed.

Lemma join_split_on s : join "." (split_on "." s) = s.
Proof.
  induction s as [|c s IH]; [done|]. cbn [split_on].
  destruct (split_on_cons "." s) as (p & ps & Hs). rewrite Hs in IH |- *.
  case_bool_decide as Hc.
  - subst c.
    change (join "." ("" :: p :: ps)) with ("" +:+ "." +:+ join "." (p :: ps)).
    by rewrite IH.
  - destruct ps as [|q ps].
    + simpl in IH |- *. by rewrite IH.
    + change (join "." (String c p :: q :: ps))
        with (String c (p +:+ "." +:+ join "." (q :: ps))).
      change (join "." (p :: q :: ps))
        with (p +:+ "." +:+ join "." (q :: ps)) in IH.
      by rewrite IH.
Qed.

(** *** Documents *)

(** What a literal builds is a dictionary exactly when it is a mapping. *)
Lemma build_is_dict t (h h' : heap) v :
  build t h = (Ok v, h') →
  isinstance h' v Tdict = match t with YDict _ => true | _ => false end.
Proof.
  destruct t as [| | | | |ts|ts|items]; simpl;
    try (by intros [= <- <-]);
    rewrite bind_run;
    match goal with
    | |- context [match ?m h with _ => _ end] =>
        destruct (m h) as [[vs|x] h1]; [|done]
    end;
    intros [= <- <-]; simpl; by rewrite list_lookup_middle.
Qed.

(** *** [get_checker_class] *)

Section with_ds.
Context {DS : Type} `{Countable DS}.
Implicit Types (env : environment DS) (ty : pyclass DS).
Implicit Types (ts : list (string * check_cls DS * instance DS)).

(** X7.  A configuration given as a structure that [validate_config]
    rejects makes [get_checker_class] raise the same error, whatever the
    modules are that can be imported, and the store is left as it was:
    no object is added to it. *)
Theorem invalid_configuration_is_rejected env (c : val) (h h' : heap) x :
  (∀ filename, c ≠ VStr filename) →
  validate_config c h = (Raise x, h') →
  get_checker_class env c h = (Raise x, h).
Proof.
  intros Hc Hrun. unfold get_checker_class.
  rewrite bind_run, (load_config_structure _ _ _ Hc).
  destruct (valid_config h c) eqn:Hvalid.
  - apply validate_config_ok in Hvalid. by rewrite Hrun in Hvalid.
  - destruct (assemble_invalid env _ _ Hvalid) as (y & -> & Hy).
    rewrite Hrun in Hy. simpl in Hy. by simplify_eq.
Qed.

(** Where an entry of the dictionary being filled comes from. *)
Lemma foldl_add_check_lookup st ts name a :
  (foldl add_check st ts).1 !! name = Some a →
  st.1 !! name = Some a ∨
  ∃ k t, ts !! k = Some t ∧ t.1.1 = name ∧
    a = Method {| fn_name := name; fn_default_c := t.2 |}.
Proof.
  revert st. induction ts as [|t ts IH]; intros st; simpl; [auto|].
  intros [Hst|(k & t' & Hk & Hname & Ha)]%IH.
  - simpl in Hst. destruct (decide (t.1.1 = name)) as [Heq|Hne].
    + rewrite Heq, lookup_insert_eq in Hst. injection Hst as <-.
      right. exists 0%nat, t. by rewrite Heq.
    + rewrite lookup_insert_ne in Hst by done. auto.
  - right. by exists (S k), t'.
Qed.

Lemma generated_method suite_name ts name f :
  method (generated suite_name ts) name = Some f →
  ∃ k t, ts !! k = Some t ∧ t.1.1 = name ∧
    f = {| fn_name := name; fn_default_c := t.2 |}.
Proof.
  unfold method, generated; simpl. intros Hm.
  destruct (decide (name = "supported_ds")) as [->|Hne].
  { by rewrite lookup_insert_eq in Hm. }
  rewrite lookup_insert_ne in Hm by done.
  destruct (_ !! name) as [[g|ds]|] eqn:Hl; simplify_eq.
  apply foldl_add_check_lookup in Hl as [Hl|(k & t & Hk & Hn & [= ->])].
  - simpl in Hl. by rewrite lookup_empty in Hl.
  - eauto.
Qed.

Lemma built_names env (h0 h' : heap) es ts name :
  Forall2 (built_for env h0 h') es ts →
  name ∈ ts.*1.*1 ↔
  ∃ e d, e ∈ es ∧ view_entry h0 e = Some d ∧ name = "check_" +:+ ed_id d.
Proof.
  induction 1 as [|e t es ts (d & l & Hd & _ & Hname & _) _ IH]; simpl.
  - split; [by intros ?%elem_of_nil|by intros (? & ? & ?%elem_of_nil & _)].
  - rewrite elem_of_cons, IH. split.
    + intros [->|(e' & d' & He' & Hd' & ->)].
      * exists e, d. split_and!; [by left|done..].
      * exists e', d'. split_and!; [by right|done..].
    + intros (e' & d' & [->|He']%elem_of_cons & Hd' & ->).
      * left. by simplify_eq.
      * right. eauto.
Qed.

(** X8.  The class that [get_checker_class] returns is named after
    [suite_name] and has [BaseCheck] as its only base; its methods are the
    [check_<check_id>] of the entries of the configuration, no more and
    no fewer, and the function of each method has the name of the
    method. *)
Theorem generated_class_shape env (c : val) (h h' : heap) ty :
  get_checker_class env c h = (Ok ty, h') →
  ∃ cfg h0 suite_name es,
    load_config env c h = (Ok cfg, h0) ∧
    view_config h0 cfg = Some (suite_name, es) ∧
    class_name ty = suite_name ∧
    class_bases ty = ["BaseCheck"] ∧
    (∀ name, name ∈ method_names ty ↔
       ∃ e d, e ∈ es ∧ view_entry h0 e = Some d ∧
              name = "check_" +:+ ed_id d) ∧
    (∀ name, name ∈ method_names ty ↔ is_Some (method ty name)) ∧
    (∀ name f, method ty name = Some f → fn_name f = name).
Proof.
  intros (cfg & h0 & name & es & ts & Hload & Hview & Hvalid & Hbuild & ->)
    %get_checker_class_ok.
  destruct (valid_config_entries _ _ _ _ Hview Hvalid) as [_ Hall].
  pose proof (build_all_built env h0 es Hall h0 h' ts (reflexivity _) Hbuild) as Hb.
  assert (Forall (λ t, t.1.1 ≠ "supported_ds") ts) as Hnames.
  { apply Forall_forall. intros t Ht.
    assert (t.1.1 ∈ ts.*1.*1) as Hin by (do 2 apply list_elem_of_fmap_2; done).
    apply (built_names _ _ _ _ _ _ Hb) in Hin as (e & d & _ & _ & ->). done. }
  exists cfg, h0, name, es. split_and!; try done.
  - intros n. rewrite (method_names_generated _ _ Hnames), elem_of_list_to_set.
    by eapply built_names.
  - intros n. rewrite (method_names_generated _ _ Hnames), elem_of_list_to_set.
    unfold method, generated; simpl. split.
    + intros Hn.
      assert (n ≠ "supported_ds") as Hne.
      { intros ->. apply list_elem_of_fmap in Hn as (p & Hp & Hn).
        apply list_elem_of_fmap in Hn as (t & -> & Hn).
        eapply Forall_forall in Hnames; [|exact Hn]. done. }
      rewrite lookup_insert_ne by done.
      assert (n ∈ dom (foldl add_check (∅, []) ts).1) as Hdom.
      { rewrite dom_foldl_add_check. simpl. rewrite dom_empty_L.
        apply elem_of_union_r, elem_of_list_to_set. done. }
      apply elem_of_dom in Hdom as [a Ha]. rewrite Ha.
      apply foldl_add_check_lookup in Ha as [Ha|(k & t & _ & _ & ->)]; [|eauto].
      simpl in Ha. by rewrite lookup_empty in Ha.
    + intros [f Hf].
      destruct (generated_method name ts n f) as (k & t & Hk & Hn & _).
      { unfold method, generated; simpl. exact Hf. }
      rewrite <- Hn. do 2 apply list_elem_of_fmap_2.
      by eapply list_elem_of_lookup_2.
  - intros n f (k & t & _ & _ & ->)%generated_method. done.
Qed.

Lemma built_names_list env (h0 h' : heap) es ts ids :
  Forall2 (built_for env h0 h') es ts →
  Forall2 (λ e id, ∃ d, view_entry h0 e = Some d ∧ ed_id d = id) es ids →
  ts.*1.*1 = (λ id, "check_" +:+ id) <$> ids.
Proof.
  intros Hb. revert ids.
  induction Hb as [|e t es ts (d & l & Hd & _ & Hname & _) _ IH];
    intros ids Hids.
  - by apply Forall2_nil_inv_l in Hids as ->.
  - apply Forall2_cons_inv_l in Hids as (id & ids' & (d' & Hd' & <-) & Hids & ->).
    rewrite !fmap_cons, (IH _ Hids), Hname. by simplify_eq.
Qed.

Lemma size_list_to_set_bound (l : list string) :
  (size (list_to_set l : gset string) ≤ length l)%nat.
Proof.
  induction l as [|x l IH].
  - by rewrite list_to_set_nil, size_empty.
  - rewrite list_to_set_cons, size_union_alt, size_singleton. simpl.
    pose proof (subseteq_size (list_to_set l ∖ {[x]}) (list_to_set l : gset string)
                  ltac:(set_solver)).
    lia.
Qed.

(** X9.  The generated class has at most as many methods as the
    configuration has entries, and exactly as many when no two entries
    have the same [check_id]. *)
Theorem method_count env (c : val) (h h' : heap) ty :
  get_checker_class env c h = (Ok ty, h') →
  ∃ cfg h0 suite_name es,
    load_config env c h = (Ok cfg, h0) ∧
    view_config h0 cfg = Some (suite_name, es) ∧
    (size (method_names ty) ≤ length es)%nat ∧
    (∀ ids,
       Forall2 (λ e id, ∃ d, view_entry h0 e = Some d ∧ ed_id d = id) es ids →
       NoDup ids →
       size (method_names ty) = length es).
Proof.
  intros (cfg & h0 & name & es & ts & Hload & Hview & Hvalid & Hbuild & ->)
    %get_checker_class_ok.
  destruct (valid_config_entries _ _ _ _ Hview Hvalid) as [_ Hall].
  pose proof (build_all_built env h0 es Hall h0 h' ts (reflexivity _) Hbuild) as Hb.
  assert (Forall (λ t, t.1.1 ≠ "supported_ds") ts) as Hnames.
  { apply Forall_forall. intros t Ht.
    assert (t.1.1 ∈ ts.*1.*1) as Hin by (do 2 apply list_elem_of_fmap_2; done).
    apply (built_names _ _ _ _ _ _ Hb) in Hin as (e & d & _ & _ & ->). done. }
  exists cfg, h0, name, es. split_and!; try done.
  - rewrite (method_names_generated _ _ Hnames).
    etrans; [apply size_list_to_set_bound|].
    rewrite !length_fmap. by rewrite (build_all_length _ _ _ _ _ Hbuild).
  - intros ids Hids Hnodup.
    rewrite (method_names_generated _ _ Hnames).
    rewrite (built_names_list _ _ _ _ _ _ Hb Hids).
    rewrite size_list_to_set.
    + rewrite length_fmap. symmetry. by eapply Forall2_length.
    + apply NoDup_fmap; [|done]. intros a b Hab. simpl in Hab. by simplify_eq.
Qed.

(** The iterations put the merged parameters at consecutive new places. *)
Lemma build_all_locations env (h0 : heap) es :
  Forall (λ e, is_Some (view_entry h0 e)) es →
  ∀ (h h' : heap) ts,
    h0 `prefix_of` h → build_all env es h = (Ok ts, h') →
    length h' = (length h + length es)%nat ∧
    ∀ k t, ts !! k = Some t → inst_kwargs t.2 = VRef (length h + k).
Proof.
  induction 1 as [|e es [d Hd] _ IH]; intros h h' ts Hp; simpl.
  - intros [= <- <-]. split; [lia|]. intros k t Hk.
    by rewrite lookup_nil in Hk.
  - rewrite bind_run.
    rewrite (build_instance_view _ _ _ _ (view_entry_mono _ _ _ _ Hp Hd)).
    destruct (resolve env (ed_name d)) as [cls|x] eqn:Hres; [|done].
    cbv zeta. destruct (params_result cls _ _) as [[]|x]; [|done].
    rewrite bind_run.
    destruct (build_all env es _) as [[ts'|x] h2] eqn:Hrest; [|done].
    intros [= <- <-].
    destruct (IH _ _ _ (transitivity Hp (prefix_app_r _ _ _ (reflexivity _))) Hrest)
      as [Hlen Hloc].
    rewrite length_app in Hlen, Hloc. simpl in Hlen, Hloc.
    split; [lia|]. intros [|k] t Hk.
    + injection Hk as <-. simpl. f_equal. lia.
    + rewrite (Hloc k t Hk). f_equal. lia.
Qed.

(** X10.  The parameters of the instance behind each method of the
    generated class are an object that [get_checker_class] added to the
    store, and the instances behind two different methods have different
    parameter objects. *)
Theorem parameter_objects_are_new_and_separate
    env (c : val) (h h' : heap) ty :
  get_checker_class env c h = (Ok ty, h') →
  (∀ name f, method ty name = Some f →
     ∃ l, inst_kwargs (fn_default_c f) = VRef l ∧
          h !! l = None ∧ is_Some (h' !! l)) ∧
  (∀ name1 name2 f1 f2,
     method ty name1 = Some f1 → method ty name2 = Some f2 →
     name1 ≠ name2 →
     inst_kwargs (fn_default_c f1) ≠ inst_kwargs (fn_default_c f2)).
Proof.
  intros (cfg & h0 & name & es & ts & Hload & Hview & Hvalid & Hbuild & ->)
    %get_checker_class_ok.
  destruct (valid_config_entries _ _ _ _ Hview Hvalid) as [_ Hall].
  destruct (build_all_locations env h0 es Hall h0 h' ts (reflexivity _) Hbuild)
    as [Hlen Hloc].
  pose proof (extends_load_config env c h) as Hp. rewrite Hload in Hp.
  simpl in Hp. apply prefix_length in Hp.
  pose proof (build_all_length _ _ _ _ _ Hbuild) as Hts.
  split.
  - intros n f (k & t & Hk & _ & ->)%generated_method. simpl.
    exists (length h0 + k)%nat. split_and!.
    + by apply Hloc.
    + apply lookup_ge_None_2. lia.
    + apply lookup_lt_is_Some. apply lookup_lt_Some in Hk. lia.
  - intros n1 n2 f1 f2 (k1 & t1 & Hk1 & Hn1 & ->)%generated_method
      (k2 & t2 & Hk2 & Hn2 & ->)%generated_method Hne. simpl.
    rewrite (Hloc _ _ Hk1), (Hloc _ _ Hk2). intros [= Heq].
    assert (k1 = k2) as -> by lia. congruence.
Qed.

(** X11.  The level of the instance behind each method of the generated
    class is [None], for an entry without [check_level], or one of HIGH,
    MEDIUM and LOW. *)
Theorem instance_levels env (c : val) (h h' : heap) ty name f :
  get_checker_class env c h = (Ok ty, h') →
  method ty name = Some f →
  inst_level (fn_default_c f) = VNone ∨
  ∃ level, inst_level (fn_default_c f) = VStr level ∧ level ∈ allowed_levels.
Proof.
  intros (cfg & h0 & sname & es & ts & Hload & Hview & Hvalid & Hbuild & ->)
    %get_checker_class_ok (k & t & Hk & _ & ->)%generated_method. simpl.
  destruct (valid_config_entries _ _ _ _ Hview Hvalid) as [_ Hall].
  pose proof (build_all_built env h0 es Hall h0 h' ts (reflexivity _) Hbuild) as Hb.
  destruct (Forall2_lookup_r _ _ _ _ _ Hb Hk)
    as (e & He & d & l & Hd & _ & _ & -> & _). simpl.
  unfold valid_config in Hvalid. rewrite Hview in Hvalid.
  apply andb_true_iff in Hvalid as [_ Hvalid].
  eapply forallb_forall in Hvalid;
    [|apply list_elem_of_In; by eapply list_elem_of_lookup_2].
  unfold valid_entry in Hvalid. rewrite Hd in Hvalid.
  destruct (ed_level d) as [v|]; [|by left]. unfold level_ok in Hvalid.
  apply py_in_strings_text in Hvalid as (s & -> & Hs). right. by exists s.
Qed.

(** The required-field checks as a whole. *)
Lemma fields_result_ok_iff (h : heap) items table :
  fields_result h items table true = Ok tt ↔
  Forall (λ f, ∃ v, dict_get (VStr f.1) items = Some v ∧
                    isinstance h v f.2 = true) table.
Proof.
  induction table as [|f table IH]; simpl.
  - split; [constructor|done].
  - rewrite Forall_cons, <- IH. unfold field_result.
    destruct (dict_get (VStr f.1) items) as [v|].
    + destruct (isinstance h v f.2) eqn:Hty.
      * split; [eauto|by intros [_ ?]].
      * split; [done|]. intros [(w & [= <-] & Hw) _]. congruence.
    + split; [done|]. by intros [(w & ? & _) _].
Qed.

Lemma fields_result_error (h : heap) items table x :
  fields_result h items table true = Raise x →
  ∃ key t, (key, t) ∈ table ∧
    ((x = ValueError (RequiredKeyNotPresent key) ∧
      dict_get (VStr key) items = None) ∨
     (∃ v, x = TypeError (NotOfType key t) ∧
           dict_get (VStr key) items = Some v ∧ isinstance h v t = false)).
Proof.
  induction table as [|[key t] table IH]; simpl; [done|].
  unfold field_result. simpl.
  destruct (dict_get (VStr key) items) as [v|] eqn:Hv.
  - destruct (isinstance h v t) eqn:Hty.
    + intros (key' & t' & Hin & Hx)%IH. exists key', t'. split; [by right|done].
    + intros [= <-]. exists key, t. split; [by left|]. right. eauto.
  - intros [= <-]. exists key, t. split; [by left|]. by left.
Qed.

(** X12.  The parameter validation of an entry whose check name resolves
    to an implementation.  The merged parameters go to a new object.  An
    implementation without [required_parameters] accepts them as they are.
    One with [required_parameters] accepts them exactly when each required
    key is among the merged parameters, from the entry or from the
    defaults, with a value of its type; otherwise the error names a
    required key that is missing, as a value error, or one whose value has
    the wrong type, as a type error, the message of the field check
    wrapped. *)
Theorem parameter_validation env (e : val) (h : heap) d cls :
  view_entry h e = Some d →
  resolve env (ed_name d) = Ok cls →
  ∃ merged r,
    merged = dict_update (dict_update [] (cls_defaults cls)) (ed_params d) ∧
    build_instance env e h = (r, h ++ [ODict merged]) ∧
    (cls_required_parameters cls = None → ∃ t, r = Ok t) ∧
    (∀ required, cls_required_parameters cls = Some required →
       ((∃ t, r = Ok t) ↔
        Forall (λ f, ∃ v, dict_get (VStr f.1) merged = Some v ∧
                          isinstance (h ++ [ODict merged]) v f.2 = true)
          required) ∧
       (∀ x, r = Raise x →
          ∃ key t, (key, t) ∈ required ∧
            ((x = ValueError (InvalidParameters (RequiredKeyNotPresent key)) ∧
              dict_get (VStr key) merged = None) ∨
             (∃ v, x = TypeError (InvalidParameters (NotOfType key t)) ∧
                   dict_get (VStr key) merged = Some v ∧
                   isinstance (h ++ [ODict merged]) v t = false)))).
Proof.
  intros Hd Hres. rewrite (build_instance_view _ _ _ _ Hd), Hres. cbv zeta.
  fold (merged_items cls (ed_params d)).
  set (merged := merged_items cls (ed_params d)).
  unfold params_result.
  destruct (cls_required_parameters cls) as [required|] eqn:Hreq.
  - destruct (fields_result (h ++ [ODict merged]) merged required true)
      as [[]|x] eqn:Hf.
    + eexists merged, _. split_and!; [done|done|done|].
      intros ? [= <-]. split; [|done].
      split; [intros _; by apply fields_result_ok_iff|eauto].
    + destruct (fields_result_error _ _ _ _ Hf)
        as (key & t & Hin & [[-> Hnone]|(v & -> & Hv & Hty)]).
      * eexists merged, _. split_and!; [done|done|done|].
        intros ? [= <-]. split.
        -- split; [by intros [? ?]|].
           intros Hall%fields_result_ok_iff. congruence.
        -- intros ? [= <-]. exists key, t. split; [done|]. by left.
      * eexists merged, _. split_and!; [done|done|done|].
        intros ? [= <-]. split.
        -- split; [by intros [? ?]|].
           intros Hall%fields_result_ok_iff. congruence.
        -- intros ? [= <-]. exists key, t. split; [done|]. right. eauto.
  - eexists merged, _. split_and!; [done|done|eauto|done].
Qed.

(** The two parts of a dotted check name. *)
Lemma resolve_check_dotted env module_name cls_name (h : heap) :
  substringb "." cls_name = false →
  resolve_check env (VStr (module_name +:+ "." +:+ cls_name)) h =
    (module ← import_module env module_name; getattr module cls_name) h.
Proof.
  intros Hdot. unfold resolve_check, py_split. rewrite bind_run.
  unfold mret at 1, M_ret at 1. cbv beta iota.
  change (module_name +:+ "." +:+ cls_name)
    with (module_name +:+ String "." cls_name).
  rewrite split_on_app, (split_on_dotless _ Hdot).
  rewrite length_app, last_snoc. simpl.
  replace (length (split_on "." module_name) + 1 - 1)%nat
    with (length (split_on "." module_name)) by lia.
  by rewrite take_app_length, join_split_on.
Qed.

(** X13.  A check name is a module path, a dot and a class name: for a
    class name without a dot, the module that is imported is the path
    before the last dot and the attribute that is read from it is the
    class name.  A path that starts with a dot is a relative import, which
    is refused with a type error whatever can be imported; the import of
    an empty path is refused with a value error; otherwise an unknown
    module is an import error and an unknown class an attribute error.
    The store is not touched. *)
Theorem check_name_resolution env module_name cls_name (h : heap) :
  substringb "." cls_name = false →
  resolve_check env (VStr (module_name +:+ "." +:+ cls_name)) h =
    (if starts_with "." module_name
     then Raise (TypeError RelativeImportNeedsPackage)
     else if bool_decide (module_name = "")
     then Raise (ValueError EmptyModuleName)
     else match env_modules env module_name with
          | None => Raise (ImportError module_name)
          | Some m =>
              match m cls_name with
              | Some cls => Ok cls
              | None => Raise (AttributeError cls_name)
              end
          end, h).
Proof.
  intros Hdot. rewrite (resolve_check_dotted _ _ _ _ Hdot).
  rewrite bind_run. unfold import_module.
  destruct (starts_with "." module_name); [done|].
  case_bool_decide; [done|].
  destruct (env_modules env module_name) as [m|]; [|done].
  unfold mret, M_ret, getattr. cbv beta iota.
  by destruct (m cls_name).
Qed.

(** X14.  A check name without a dot leaves no module path, and its
    resolution is refused with the value error of an empty module name,
    whatever can be imported; so is the assembly of a valid configuration
    whose first entry has such a name. *)
Theorem check_name_without_module env :
  (∀ name (h : heap),
     substringb "." name = false →
     resolve_check env (VStr name) h = (Raise (ValueError EmptyModuleName), h)) ∧
  (∀ (c : val) (h : heap) suite_name e es d,
     view_config h c = Some (suite_name, e :: es) →
     valid_config h c = true →
     view_entry h e = Some d →
     substringb "." (ed_name d) = false →
     get_checker_class env c h = (Raise (ValueError EmptyModuleName), h)).
Proof.
  assert (∀ name (h : heap), substringb "." name = false →
            resolve_check env (VStr name) h =
              (Raise (ValueError EmptyModuleName), h)) as Hres.
  { intros name h Hdot. unfold resolve_check, py_split. rewrite bind_run.
    unfold mret at 1, M_ret at 1. cbv beta iota.
    rewrite (split_on_dotless _ Hdot). simpl. done. }
  split; [done|].
  intros c h name e es d Hview Hvalid Hd Hdot. unfold get_checker_class.
  assert (∀ filename, c ≠ VStr filename) as Hc.
  { intros f ->. by unfold valid_config, view_config in Hvalid. }
  rewrite bind_run, (load_config_structure _ _ _ Hc).
  rewrite (assemble_valid _ _ _ _ _ Hview Hvalid). simpl.
  rewrite bind_run, (build_instance_view _ _ _ _ Hd).
  unfold resolve. by rewrite (Hres _ [] Hdot).
Qed.

(** X15.  A configuration given as a file name.  If the file cannot be
    opened, or its text cannot be parsed, that error is what
    [get_checker_class] raises, and the store is as before.  If its
    document is anything but a mapping, the type error of a dictionary
    that could not be parsed is raised, before any validation.  If it is a
    mapping, the call goes on as for the structure that the document
    builds. *)
Theorem file_configuration env filename (h : heap) :
  (env_yaml env filename = Unreadable →
   get_checker_class env (VStr filename) h = (Raise (OSError filename), h)) ∧
  (env_yaml env filename = Unparseable →
   get_checker_class env (VStr filename) h = (Raise YAMLError, h)) ∧
  (∀ t, env_yaml env filename = Parsed t →
     (∀ items, t ≠ YDict items) →
     ∃ h0, get_checker_class env (VStr filename) h =
             (Raise (TypeError CouldNotParseDict), h0)) ∧
  (∀ items, env_yaml env filename = Parsed (YDict items) →
     ∃ config h0,
       build (YDict items) h = (Ok config, h0) ∧
       (∀ s, config ≠ VStr s) ∧
       get_checker_class env (VStr filename) h =
         get_checker_class env config h0).
Proof.
  split_and!.
  - intros Hy. unfold get_checker_class, load_config.
    by rewrite bind_run, Hy.
  - intros Hy. unfold get_checker_class, load_config.
    by rewrite bind_run, Hy.
  - intros t Hy Ht. destruct (returns_build t h) as (v & h0 & Hb).
    pose proof (build_is_dict _ _ _ _ Hb) as Hty.
    exists h0. unfold get_checker_class, load_config.
    rewrite bind_run, Hy, bind_run, Hb. unfold py_isinstance.
    rewrite bind_run. destruct t; try (by rewrite Hty). by destruct (Ht items).
  - intros items Hy. destruct (returns_build (YDict items) h) as (v & h0 & Hb).
    pose proof (build_is_dict _ _ _ _ Hb) as Hty.
    assert (∀ s, v ≠ VStr s) as Hv by (intros s ->; done).
    exists v, h0. split_and!; [done..|].
    unfold get_checker_class. rewrite !bind_run.
    rewrite (load_config_structure _ _ _ Hv). unfold load_config.
    rewrite Hy, bind_run, Hb. unfold py_isinstance.
    rewrite bind_run. by rewrite Hty.
Qed.

End with_ds.

Lemma file_configuration_witness :
  get_checker_class Tests.env (VStr "suite.yml") [] =
  (Raise (OSError "suite.yml"), []).
Proof.
  exact (proj1 (file_configuration Tests.env "suite.yml" []) eq_refl).
Defined.

Lemma check_name_resolution_witness :
  resolve_check Tests.env
    (VStr (Tests.get_import_string "SupportDsTestCheckClass1")) [] =
    (Ok Tests.SupportDsTestCheckClass1, []) ∧
  resolve_check Tests.env (VStr ".tests.SupportDsTestCheckClass1") [] =
    (Raise (TypeError RelativeImportNeedsPackage), []).
Proof.
  split.
  - exact (check_name_resolution Tests.env "cc_yaml.tests"
             "SupportDsTestCheckClass1" [] eq_refl).
  - exact (check_name_resolution Tests.env ".tests"
             "SupportDsTestCheckClass1" [] eq_refl).
Defined.

Lemma check_name_without_module_witness :
  resolve_check Tests.env (VStr "blah") [] =
  (Raise (ValueError EmptyModuleName), []).
Proof.
  exact (proj1 (check_name_without_module Tests.env) "blah" [] eq_refl).
Defined.

Lemma parameter_validation_witness :
  ∃ h', build_instance Tests.env (VRef 2)
          (store_of (Examples.required_params_entry Examples.missing_three)) =
        (Raise (ValueError (InvalidParameters (RequiredKeyNotPresent "three"))), h').
Proof.
  destruct (parameter_validation Tests.env (VRef 2)
              (store_of (Examples.required_params_entry Examples.missing_three))
              {| ed_id := "one";
                 ed_name := "cc_yaml.tests.RequiredParamsTestCheckClass";
                 ed_params :=
                   [(VStr "one", VStr "string here"); (VStr "two", VRef 0);
                    (VStr "four", VInt 14)];
                 ed_level := None |}
              Tests.RequiredParamsTestCheckClass)
    as (merged & r & _ & Hrun & _).
  - reflexivity.
  - reflexivity.
  - eexists. rewrite Hrun. f_equal.
    vm_compute in Hrun. by injection Hrun as <- _.
Defined.

Lemma method_count_witness :
  (∃ ty h', get_checker_class Tests.env (value_of Examples.two_checks_config)
              (store_of Examples.two_checks_config) = (Ok ty, h') ∧
     size (method_names ty) = 2%nat) ∧
  (∃ ty h', get_checker_class Tests.env (value_of Tests.supported_ds_config)
              (store_of Tests.supported_ds_config) = (Ok ty, h') ∧
     (size (method_names ty) ≤ 2)%nat).
Proof.
  split.
  - destruct (get_checker_class Tests.env (value_of Examples.two_checks_config)
                (store_of Examples.two_checks_config)) as [[ty|x] h'] eqn:Hrun;
      [|vm_compute in Hrun; discriminate].
    exists ty, h'. split; [done|].
    destruct (method_count _ _ _ _ _ Hrun)
      as (cfg & h0 & name & es & Hload & Hview & _ & Hsize).
    injection Hload as <- <-. vm_compute in Hview. injection Hview as <- <-.
    apply (Hsize ["one"; "two"]).
    + repeat constructor; eexists; split; reflexivity.
    + apply NoDup_cons. split; [|apply NoDup_singleton].
      intros Hin. apply elem_of_cons in Hin as [Heq|Hin]; [discriminate|].
      by apply elem_of_nil in Hin.
  - destruct (get_checker_class Tests.env (value_of Tests.supported_ds_config)
                (store_of Tests.supported_ds_config)) as [[ty|x] h'] eqn:Hrun;
      [|vm_compute in Hrun; discriminate].
    exists ty, h'. split; [done|].
    destruct (method_count _ _ _ _ _ Hrun)
      as (cfg & h0 & name & es & Hload & Hview & Hle & _).
    injection Hload as <- <-. vm_compute in Hview. injection Hview as <- <-.
    exact Hle.
Defined.

Lemma parameter_objects_are_new_and_separate_witness :
  ∃ ty h', get_checker_class Tests.env (value_of Tests.default_parameters_config)
             (store_of Tests.default_parameters_config) = (Ok ty, h') ∧
    ∀ name f, method ty name = Some f →
      ∃ l, inst_kwargs (fn_default_c f) = VRef l ∧
           store_of Tests.default_parameters_config !! l = None ∧
           is_Some (h' !! l).
Proof.
  destruct (get_checker_class Tests.env (value_of Tests.default_parameters_config)
              (store_of Tests.default_parameters_config)) as [[ty|x] h'] eqn:Hrun;
    [|vm_compute in Hrun; discriminate].
  exists ty, h'. split; [done|].
  exact (proj1 (parameter_objects_are_new_and_separate _ _ _ _ _ Hrun)).
Defined.

Lemma instance_levels_witness :
  ∃ ty h' f,
    get_checker_class Tests.env (value_of Tests.default_parameters_config)
      (store_of Tests.default_parameters_config) = (Ok ty, h') ∧
    method ty "check_one" = Some f ∧
    (inst_level (fn_default_c f) = VNone ∨
     ∃ level, inst_level (fn_default_c f) = VStr level ∧ level ∈ allowed_levels).
Proof.
  destruct (get_checker_class Tests.env (value_of Tests.default_parameters_config)
              (store_of Tests.default_parameters_config)) as [[ty|x] h'] eqn:Hrun;
    [|vm_compute in Hrun; discriminate].
  destruct (method ty "check_one") as [f|] eqn:Hf;
    [|vm_compute in Hrun; injection Hrun as <- <-; vm_compute in Hf; discriminate].
  exists ty, h', f. split_and!; [done..|].
  exact (instance_levels _ _ _ _ _ _ _ Hrun Hf).
Defined.

Lemma generated_class_shape_witness :
  ∃ ty h', get_checker_class Tests.env (value_of Tests.supported_ds_config)
             (store_of Tests.supported_ds_config) = (Ok ty, h') ∧
    class_name ty = "test_suite" ∧ class_bases ty = ["BaseCheck"] ∧
    ∀ name, name ∈ method_names ty ↔ name = "check_one".
Proof.
  destruct (get_checker_class Tests.env (value_of Tests.supported_ds_config)
              (store_of Tests.supported_ds_config)) as [[ty|x] h'] eqn:Hrun;
    [|vm_compute in Hrun; discriminate].
  exists ty, h'. split; [done|].
  destruct (generated_class_shape _ _ _ _ _ Hrun)
    as (cfg & h0 & name & es & Hload & Hview & Hname & Hbases & Hmeth & _).
  injection Hload as <- <-. vm_compute in Hview. injection Hview as <- <-.
  split_and!; [done..|].
  intros n. rewrite Hmeth. split.
  - intros (e & d & He & Hd & ->).
    apply elem_of_cons in He as [->|He];
      [vm_compute in Hd; by injection Hd as <-|].
    apply elem_of_cons in He as [->|He];
      [vm_compute in Hd; by injection Hd as <-|].
    by apply elem_of_nil in He.
  - intros ->. eexists (VRef 1), _. split_and!; [by left|reflexivity|done].
Defined.

Lemma invalid_configuration_is_rejected_witness :
  get_checker_class Tests.env (value_of Tests.missing_parameters_config)
    (store_of Tests.missing_parameters_config) =
  (Raise (ValueError (RequiredKeyNotPresent "parameters")),
   store_of Tests.missing_parameters_config).
Proof.
  eapply (invalid_configuration_is_rejected Tests.env).
  - intros filename Heq. vm_compute in Heq. discriminate.
  - reflexivity.
Defined.

(** *** [get_suites] *)

Section suites.
Context {DS : Type} `{Countable DS}.
Implicit Types (env : environment DS) (ty : pyclass DS).

(** One turn of the loop of [get_suites]. *)
Lemma get_suites_cons env filename files (h : heap) :
  get_suites env {| yaml_files := filename :: files |} h =
    match get_checker_class env (VStr filename) h with
    | (Ok suite, h1) =>
        for_fold files
          (λ suites filename,
             suite ← get_checker_class env (VStr filename);
             mret (<[class_name suite := suite]> suites))
          (<[class_name suite := suite]> ∅) h1
    | (Raise x, h1) => (Raise x, h1)
    end.
Proof.
  unfold get_suites. simpl. rewrite !bind_run.
  by destruct (get_checker_class env (VStr filename) h) as [[suite|x] h1].
Qed.

(** What the loop keeps true of the dictionary it fills. *)
Lemma suites_loop env files :
  ∀ (suites0 suites : gmap string (pyclass DS)) (h h' : heap),
    for_fold files
      (λ suites filename,
         suite ← get_checker_class env (VStr filename);
         mret (<[class_name suite := suite]> suites))
      suites0 h = (Ok suites, h') →
    h `prefix_of` h' ∧
    (∀ name ty, suites !! name = Some ty →
       suites0 !! name = Some ty ∨
       class_name ty = name ∧
       ∃ filename h1 h2,
         filename ∈ files ∧ h `prefix_of` h1 ∧ h2 `prefix_of` h' ∧
         get_checker_class env (VStr filename) h1 = (Ok ty, h2)) ∧
    (∀ filename, filename ∈ files →
       ∃ ty h1 h2,
         h `prefix_of` h1 ∧ h2 `prefix_of` h' ∧
         get_checker_class env (VStr filename) h1 = (Ok ty, h2) ∧
         class_name ty ∈ dom suites) ∧
    dom suites0 ⊆ dom suites ∧
    (size suites ≤ size suites0 + length files)%nat.
Proof.
  induction files as [|f files IH]; intros suites0 suites h h'; simpl.
  - intros [= <- <-]. split_and!; [done|auto|by intros ? ?%elem_of_nil|done|lia].
  - rewrite !bind_run.
    destruct (get_checker_class env (VStr f) h) as [[ty|x] h1] eqn:Hrun; [|done].
    unfold mret at 1, M_ret at 1. cbv beta iota.
    pose proof (extends_get_checker_class env (VStr f) h) as Hp.
    rewrite Hrun in Hp. simpl in Hp.
    intros (Hp' & Hfrom & Hall & Hdom & Hsize)%IH.
    assert (h `prefix_of` h') as Hhh' by (by transitivity h1).
    split_and!.
    + done.
    + intros name ty' [Hin|(Hname & f' & h2 & h3 & Hf' & Hp2 & Hp3 & Hrun')]%Hfrom.
      * destruct (decide (class_name ty = name)) as [<-|Hne].
        -- rewrite lookup_insert_eq in Hin. injection Hin as <-.
           right. split; [done|]. exists f, h, h1.
           split_and!; [by left|done..].
        -- rewrite lookup_insert_ne in Hin by done. by left.
      * right. split; [done|]. exists f', h2, h3.
        split_and!; [by right|by transitivity h1|done..].
    + intros f' [->|Hf']%elem_of_cons.
      * exists ty, h, h1. split_and!; [done..|].
        apply Hdom. rewrite dom_insert_L. set_solver.
      * destruct (Hall f' Hf') as (ty' & h2 & h3 & Hp2 & Hp3 & Hrun' & Hin).
        exists ty', h2, h3. split_and!; [by transitivity h1|done..].
    + etrans; [|exact Hdom]. rewrite dom_insert_L. set_solver.
    + rewrite map_size_insert in Hsize.
      destruct (suites0 !! class_name ty); simpl in Hsize; lia.
Qed.

(** X16.  The suites that [get_suites] returns.  Each key is the name of
    the class it maps to, and that class is what [get_checker_class]
    returned for one of the files; every file contributed a class whose
    name is a key; so there are at most as many suites as files.  The
    calls were made one after the other, each in the store the one before
    had left. *)
Theorem suites_are_the_files_classes env args (h h' : heap) suites :
  get_suites env args h = (Ok suites, h') →
  (∀ name ty, suites !! name = Some ty →
     class_name ty = name ∧
     ∃ filename h1 h2,
       filename ∈ yaml_files args ∧ h `prefix_of` h1 ∧ h2 `prefix_of` h' ∧
       get_checker_class env (VStr filename) h1 = (Ok ty, h2)) ∧
  (∀ filename, filename ∈ yaml_files args →
     ∃ ty h1 h2,
       h `prefix_of` h1 ∧ h2 `prefix_of` h' ∧
       get_checker_class env (VStr filename) h1 = (Ok ty, h2) ∧
       class_name ty ∈ dom suites) ∧
  (size suites ≤ length (yaml_files args))%nat.
Proof.
  intros (_ & Hfrom & Hall & _ & Hsize)%suites_loop. split_and!.
  - intros name ty [Hin|?]%Hfrom; [|done]. by rewrite lookup_empty in Hin.
  - done.
  - by rewrite map_size_empty in Hsize.
Qed.

(** X17.  A file for which [get_checker_class] fails in whatever store
    makes [get_suites] fail: no suites are returned when one of the files
    is of no use, such as a file that cannot be opened. *)
Theorem one_bad_file_fails_all env args filename (h : heap) :
  filename ∈ yaml_files args →
  (∀ h1, ∃ x h2, get_checker_class env (VStr filename) h1 = (Raise x, h2)) →
  ∃ x h', get_suites env args h = (Raise x, h').
Proof.
  destruct args as [files]. unfold get_suites. simpl.
  generalize (∅ : gmap string (pyclass DS)). revert h.
  induction files as [|f files IH]; intros h suites0 Hin Hbad.
  - by apply elem_of_nil in Hin.
  - simpl. rewrite !bind_run.
    destruct (get_checker_class env (VStr f) h) as [[ty|x] h1] eqn:Hrun; [|eauto].
    unfold mret at 1, M_ret at 1. cbv beta iota.
    apply elem_of_cons in Hin as [->|Hin].
    + destruct (Hbad h) as (x & h2 & Hx). congruence.
    + by apply IH.
Qed.

(** X18.  [get_suites] only adds objects to the store, whether it returns
    or raises; with no file it returns no suite and adds nothing. *)
Theorem get_suites_frame env args (h : heap) :
  (∃ fresh, (get_suites env args h).2 = h ++ fresh) ∧
  (yaml_files args = [] → get_suites env args h = (Ok ∅, h)).
Proof.
  split; [|destruct args as [files]; simpl; by intros ->].
  apply (extends_for_fold (yaml_files args)). intros suites filename.
  apply extends_bind; [apply extends_get_checker_class|].
  intros suite. apply reads_extends, reads_ret.
Qed.

End suites.

Lemma suites_are_the_files_classes_witness :
  ∃ suites h',
    get_suites Examples.env {| yaml_files := ["supported.yml"; "sizes.yml"] |} [] =
      (Ok suites, h') ∧
    (∀ name ty, suites !! name = Some ty → class_name ty = name) ∧
    (size suites ≤ 2)%nat.
Proof.
  destruct (get_suites Examples.env
              {| yaml_files := ["supported.yml"; "sizes.yml"] |} [])
    as [[suites|x] h'] eqn:Hrun; [|vm_compute in Hrun; discriminate].
  exists suites, h'. split; [done|].
  destruct (suites_are_the_files_classes _ _ _ _ _ Hrun) as (Hfrom & _ & Hsize).
  split; [|exact Hsize]. intros name ty Hin. by destruct (Hfrom name ty Hin).
Defined.

Lemma one_bad_file_fails_all_witness :
  ∃ x h',
    get_suites Examples.env {| yaml_files := ["supported.yml"; "missing.yml"] |} [] =
      (Raise x, h').
Proof.
  apply (one_bad_file_fails_all Examples.env
           {| yaml_files := ["supported.yml"; "missing.yml"] |} "missing.yml").
  - simpl. right. left.
  - intros h1. by exists (OSError "missing.yml"), h1.
Defined.

Lemma get_suites_frame_witness :
  get_suites Examples.env {| yaml_files := [] |} [] = (Ok ∅, []).
Proof.
  exact (proj2 (get_suites_frame Examples.env {| yaml_files := [] |} []) eq_refl).
Defined.

End Properties.
